(** * torus-cli: the daemon's session routes, lifecycle, machine-token logic,
      credentials client and machine bootstrap, embedded in Rocq.

    Every Go function is translated into a function of an explicit state.
    Collaborators whose code sits outside the translated files (the registry
    client, the crypto engine, the gatekeeper) appear as interfaces (type
    classes) whose operations take and return the collaborator's own state.
    Where the order of calls matters (the routes, the daemon's lifecycle, the
    membership posts) the calls are appended to a trace.  [log.Printf] and
    [fmt.Println] output is not part of the model. *)

From Stdlib Require Import ZArith Ascii String List Bool Lia.
From stdpp Require Import base option list strings gmap.

Open Scope Z_scope.
Open Scope string_scope.
Open Scope list_scope.

(** ** Go prelude: errors, results and the state-passing monad *)

Module Go.

(** Go's [error] interface, with the concrete error types the translated
    code builds or inspects. *)
Inductive error : Type :=
| RegistryError (StatusCode : Z) (msg : string)   (* *registry.Error *)
| ErrorString (msg : string)                      (* errors.New(msg) *)
| Errorf (format : string) (args : list string) (err : error).
                                    (* fmt.Errorf(format, args..., err) *)

(** A Go [(T, error)] pair: exactly one of the two is meaningful. *)
Inductive result (T : Type) : Type :=
| Ok (v : T)
| Err (e : error).
Arguments Ok {T} v.
Arguments Err {T} e.

(** Statements running over a state [S] and producing an [A]. *)
Definition Eff (S A : Type) : Type := S -> A * S.

Definition ret {S A} (a : A) : Eff S A := fun s => (a, s).

Definition bind {S A B} (c : Eff S A) (k : A -> Eff S B) : Eff S B :=
  fun s => let (a, s') := c s in k a s'.

Definition exec {S A} (c : Eff S A) (s : S) : S := snd (c s).
Definition eval {S A} (c : Eff S A) (s : S) : A := fst (c s).

(** net/http status codes used by the routes. *)
Definition StatusNoContent : Z := 204.
Definition StatusBadRequest : Z := 400.
Definition StatusNotFound : Z := 404.

End Go.

Export Go.

Declare Scope eff_scope.
Delimit Scope eff_scope with eff.
Notation "'let*' x ':=' c 'in' k" := (bind c (fun x => k))
  (at level 10, x pattern, c at level 99, k at level 200) : eff_scope.
Notation "c ';;' k" := (bind c (fun _ => k))
  (at level 100, right associativity) : eff_scope.
Open Scope eff_scope.

(** ** daemon/session (first generation, used by the routes) *)

Module session.

(** Modelled from the spec: the session store of the daemon (package
    [daemon/session], not among the translated files).  A session is created
    empty, becomes populated on login and returns to empty on logout;
    populating a populated session fails; logout zeroes every field.  The
    routes use the three-field shape [Set(id, passphrase, token)]. *)
Record Session : Type := mkSession {
  id : string;
  passphrase : string;
  token : string
}.

Definition NewSession : Session := mkSession "" "" "".

Definition is_empty (s : Session) : bool :=
  String.eqb (id s) "" && String.eqb (passphrase s) "" && String.eqb (token s) "".

(** Populate; refused (the session is kept as it is) when already populated. *)
Definition Set_ (i p t : string) (s : Session) : Session :=
  if is_empty s then mkSession i p t else s.

Definition Token (s : Session) : string := token s.
Definition HasToken (s : Session) : bool := negb (String.eqb (token s) "").
Definition HasPassphrase (s : Session) : bool := negb (String.eqb (passphrase s) "").
Definition Logout (s : Session) : Session := NewSession.

End session.

(** ** daemon/routes: login, logout *)

Module routes.

Import session.

(** The decoded body of POST /v1/login. *)
Record login : Type := mkLogin { Email : string; Passphrase : string }.

(** The user envelope the registry returns for the session's owner. *)
Record User : Type := mkUser { ID : string; Body : string }.

(** The JSON error body of the routes. *)
Record errorMsg : Type := mkErrorMsg { Type_ : string; Error : string }.
Definition badRequestError : string := "bad_request".

(** What the handlers need from outside: the registry client (whose calls
    change the registry's state [R]), the login HMAC derivation of the crypto
    package and the JSON decoder for the request body. *)
Class Env (R : Type) : Type := {
  Tokens_PostLogin : string -> R -> result (string * string) * R;
  Tokens_PostAuth : string -> string -> R -> result string * R;
  Tokens_Delete : string -> R -> option error * R;
  Users_GetSelf : string -> R -> result User * R;
  DeriveLoginHMAC : string -> string -> string -> result string;
  Decode_login : string -> result login
}.

(** Every call a handler makes, in the order made.  The calls on the
    [http.ResponseWriter] are the response. *)
Inductive Event : Type :=
| EvPostLogin (email : string)
| EvDeriveLoginHMAC (passphrase salt loginToken : string)
| EvPostAuth (loginToken hmac : string)
| EvGetSelf (authToken : string)
| EvTokensDelete (tok : string)
| EvDbSet (self : User)
| EvSessionSet (id passphrase token : string)
| EvSessionLogout
| EvWriteHeader (code : Z)
| EvEncode (msg : errorMsg)
| EvEncodeResponseErr (err : error).

Record State (R : Type) : Type := mkState {
  registry : R;
  sess : Session;
  db : gmap string User;
  trace : list Event
}.
Arguments mkState {R}.
Arguments registry {R}.
Arguments sess {R}.
Arguments db {R}.
Arguments trace {R}.

Section Handlers.
Context {R : Type} `{Env R}.

Definition emit (e : Event) : Eff (State R) unit :=
  fun st => (tt, mkState (registry st) (sess st) (db st) (trace st ++ [e])).

(** Run a registry call on the registry component of the state. *)
Definition onRegistry {A} (f : R -> A * R) : Eff (State R) A :=
  fun st => let (a, r') := f (registry st) in
            (a, mkState r' (sess st) (db st) (trace st)).

Definition PostLogin (email : string) : Eff (State R) (result (string * string)) :=
  emit (EvPostLogin email) ;; onRegistry (Tokens_PostLogin email).

Definition PostAuth (loginToken hmac : string) : Eff (State R) (result string) :=
  emit (EvPostAuth loginToken hmac) ;; onRegistry (Tokens_PostAuth loginToken hmac).

Definition GetSelf (authToken : string) : Eff (State R) (result User) :=
  emit (EvGetSelf authToken) ;; onRegistry (Users_GetSelf authToken).

Definition Delete (tok : string) : Eff (State R) (option error) :=
  emit (EvTokensDelete tok) ;; onRegistry (Tokens_Delete tok).

Definition deriveHMAC (p salt tok : string) : Eff (State R) (result string) :=
  emit (EvDeriveLoginHMAC p salt tok) ;; ret (DeriveLoginHMAC p salt tok).

(** Modelled from the spec: the local cache DB is a key-value store; [Set]
    stores the envelope under its id. *)
Definition dbSet (self : User) : Eff (State R) unit :=
  emit (EvDbSet self) ;;
  fun st => (tt, mkState (registry st) (sess st) (<[ID self := self]> (db st)) (trace st)).

Definition sessionSet (i p t : string) : Eff (State R) unit :=
  emit (EvSessionSet i p t) ;;
  fun st => (tt, mkState (registry st) (Set_ i p t (sess st)) (db st) (trace st)).

Definition sessionLogout : Eff (State R) unit :=
  emit EvSessionLogout ;;
  fun st => (tt, mkState (registry st) (Logout (sess st)) (db st) (trace st)).

Definition sessionToken : Eff (State R) string :=
  fun st => (Token (sess st), st).

Definition WriteHeader (code : Z) : Eff (State R) unit := emit (EvWriteHeader code).
Definition Encode (m : errorMsg) : Eff (State R) unit := emit (EvEncode m).
Definition encodeResponseErr (err : error) : Eff (State R) unit :=
  emit (EvEncodeResponseErr err).

(** [loginRoute]: the handler for POST /v1/login, applied to the request
    body. *)
Definition loginRoute (body : string) : Eff (State R) unit :=
  match Decode_login body with
  | Err err => encodeResponseErr err
  | Ok creds =>
    if String.eqb (Email creds) "" || String.eqb (Passphrase creds) "" then
      WriteHeader StatusBadRequest ;;
      Encode (mkErrorMsg badRequestError "email and passphrase required")
    else
      let* r := PostLogin (Email creds) in
      match r with
      | Err err => encodeResponseErr err
      | Ok (salt, loginToken) =>
        let* r := deriveHMAC (Passphrase creds) salt loginToken in
        match r with
        | Err err => encodeResponseErr err
        | Ok hmac =>
          let* r := PostAuth loginToken hmac in
          match r with
          | Err err => encodeResponseErr err
          | Ok authToken =>
            let* r := GetSelf authToken in
            match r with
            | Err err => encodeResponseErr err
            | Ok self =>
              dbSet self ;;
              sessionSet (ID self) (Passphrase creds) authToken ;;
              WriteHeader StatusNoContent
            end
          end
        end
      end
  end.

(** [logoutRoute]: the handler for POST /v1/logout. *)
Definition logoutRoute : Eff (State R) unit :=
  let* tok := sessionToken in
  if String.eqb tok "" then
    WriteHeader StatusNotFound
  else
    let* err := Delete tok in
    match err with
    | Some (RegistryError StatusCode msg) =>
      if (500 <=? StatusCode)%Z then
        encodeResponseErr (RegistryError StatusCode msg)
      else if (400 <=? StatusCode)%Z then
        sessionLogout ;;
        WriteHeader StatusNoContent
      else
        ret tt
    | None =>
      sessionLogout ;;
      WriteHeader StatusNoContent
    | Some err => encodeResponseErr err
    end.

End Handlers.

End routes.

(** ** daemon: Run and Shutdown *)

Module daemon.

(** apitypes.UserLogin and apitypes.MachineLogin, the two requests
    [logic.Session.Login] accepts.  A token id is held in its decoded form,
    a secret as the decoded bytes. *)
Inductive Login : Type :=
| UserLogin (Email Password : string)
| MachineLogin (TokenID : string) (Secret : string).

(** The daemon's collaborators: the process environment, the logic engine's
    session login, the updates engine, the proxy, the DB and the lockfile,
    all living in a world [W]. *)
Class Env (W : Type) : Type := {
  os_LookupEnv : string -> W -> option string;
  identity_DecodeFromString : string -> result string;
  base64_NewFromString : string -> result string;
  Session_Login : Login -> W -> option error * W;
  updates_Start : W -> option error * W;
  updates_Stop : W -> option error * W;
  proxy_Listen : W -> option error * W;
  proxy_Close : W -> option error * W;
  db_Close : W -> option error * W;
  lock_Unlock : W -> option error * W
}.

(** The calls on the collaborators; a login is recorded with the error it
    returned. *)
Inductive Event : Type :=
| EvLogin (l : Login) (err : option error)
| EvUpdatesStart
| EvUpdatesStop
| EvProxyListen
| EvProxyClose
| EvDbClose
| EvLockUnlock.

(** The [Daemon] struct: its collaborators are in [world]; [hasShutdown] is
    the struct's own flag. *)
Record Daemon (W : Type) : Type := mkDaemon {
  world : W;
  hasShutdown : bool;
  trace : list Event
}.
Arguments mkDaemon {W}.
Arguments world {W}.
Arguments hasShutdown {W}.
Arguments trace {W}.

Section Lifecycle.
Context {W : Type} `{Env W}.

(** Call a collaborator and record the call. *)
Definition call {A} (e : A -> Event) (f : W -> A * W) : Eff (Daemon W) A :=
  fun d => let (a, w') := f (world d) in
           (a, mkDaemon w' (hasShutdown d) (trace d ++ [e a])).

Definition LookupEnv (name : string) : Eff (Daemon W) (option string) :=
  fun d => (os_LookupEnv name (world d), d).

Definition getHasShutdown : Eff (Daemon W) bool :=
  fun d => (hasShutdown d, d).

Definition setHasShutdown (b : bool) : Eff (Daemon W) unit :=
  fun d => (tt, mkDaemon (world d) b (trace d)).

(** [Daemon.Run].  [os.LookupEnv] gives [Some v] when the variable is set
    (also to the empty string) and [None] when it is not. *)
Definition Run : Eff (Daemon W) (option error) :=
  let* email := LookupEnv "TORUS_EMAIL" in
  let* password := LookupEnv "TORUS_PASSWORD" in
  let* tokenID := LookupEnv "TORUS_TOKEN_ID" in
  let* tokenSecret := LookupEnv "TORUS_TOKEN_SECRET" in
  let* err :=
    match email, password with
    | Some email, Some password =>
      call (EvLogin (UserLogin email password))
           (Session_Login (UserLogin email password))
    | _, _ => ret None
    end in
  match err with
  | Some err => ret (Some err)
  | None =>
    let* err :=
      match tokenID, tokenSecret with
      | Some tokenID, Some tokenSecret =>
        match identity_DecodeFromString tokenID with
        | Err err => ret (Some err)
        | Ok ID =>
          match base64_NewFromString tokenSecret with
          | Err err => ret (Some err)
          | Ok secret =>
            call (EvLogin (MachineLogin ID secret))
                 (Session_Login (MachineLogin ID secret))
          end
        end
      | _, _ => ret None
      end in
    match err with
    | Some err => ret (Some err)
    | None =>
      let* _ := call (fun _ => EvUpdatesStart) updates_Start in
      call (fun _ => EvProxyListen) proxy_Listen
    end
  end.

(** [Daemon.Shutdown]. *)
Definition Shutdown : Eff (Daemon W) (option error) :=
  let* has := getHasShutdown in
  if has then ret None
  else
    setHasShutdown true ;;
    let* err := call (fun _ => EvLockUnlock) lock_Unlock in
    match err with
    | Some err => ret (Some (Errorf "Could not unlock: %s" [] err))
    | None =>
      let* err := call (fun _ => EvProxyClose) proxy_Close in
      match err with
      | Some err => ret (Some (Errorf "Could not stop http proxy: %s" [] err))
      | None =>
        let* err := call (fun _ => EvDbClose) db_Close in
        match err with
        | Some err => ret (Some (Errorf "Could not close db: %s" [] err))
        | None =>
          let* err := call (fun _ => EvUpdatesStop) updates_Stop in
          match err with
          | Some err => ret (Some (Errorf "Could not stop update checker: %s" [] err))
          | None => ret None
          end
        end
      end
    end.

End Lifecycle.

End daemon.

(** ** daemon/logic: machine tokens *)

Module logic.

(** identity.ID, base64.Value and the other byte strings are held as
    strings of bytes. *)
Definition ID : Type := string.

(** primitive.LoginPublicKey *)
Record LoginPublicKey : Type := mkLoginPublicKey {
  lpk_Salt : string;
  lpk_Value : string;
  lpk_Alg : string
}.

(** primitive.MasterKey: the sealed master key object. *)
Record MasterKey : Type := mkMasterKey { mk_Alg : string; mk_Value : string }.

(** primitive.MachineToken, the body of a machine token. *)
Record MachineTokenBody : Type := mkMachineTokenBody {
  mt_OrgID : ID;
  mt_MachineID : ID;
  mt_PublicKey : LoginPublicKey;
  mt_Master : MasterKey;
  mt_CreatedBy : ID;
  mt_Created : Z;
  mt_DestroyedBy : option ID;
  mt_Destroyed : option Z;
  mt_State : string
}.

(** envelope.MachineToken *)
Record MachineToken : Type := mkMachineToken {
  tok_ID : ID;
  tok_Version : Z;
  tok_Body : MachineTokenBody
}.

(** primitive.Machine and envelope.Machine *)
Record MachineBody : Type := mkMachineBody { m_OrgID : ID; m_Name : string }.
Record Machine : Type := mkMachine {
  mach_ID : ID;
  mach_Version : Z;
  mach_Body : MachineBody
}.

(** The constants of the primitive and crypto packages that CreateToken
    uses; their values are those of the wire format. *)
Definition MachineTokenActiveState : string := "active".
Definition EdDSA : string := "eddsa".
Definition SignatureClaimType : string := "signature".

(** crypto.LoginKeypair with its accessors [Salt()] and [PublicKey()]. *)
Record LoginKeypair : Type := mkLoginKeypair {
  lk_salt : string;
  lk_public : string;
  lk_private : string
}.
Definition Salt (k : LoginKeypair) : string := lk_salt k.
Definition PublicKey (k : LoginKeypair) : string := lk_public k.

(** crypto.KeyPairs: the raw signing and encryption pairs. *)
Record KeyPair : Type := mkKeyPair { kp_Public : string; kp_Private : string }.
Record KeyPairs : Type := mkKeyPairs { Signature : KeyPair; Encryption : KeyPair }.

(** Public and private key envelopes and claim envelopes; primitive.Claim is
    kept as built by [primitive.NewClaim]. *)
Record PublicKeyEnv : Type := mkPublicKeyEnv { pk_ID : ID; pk_Body : string }.
Record PrivateKeyEnv : Type := mkPrivateKeyEnv { sk_ID : ID; sk_Body : string }.
Definition RawClaim : Type := string.
Record ClaimEnv : Type := mkClaimEnv { cl_ID : ID; cl_Body : RawClaim; cl_Sig : string }.

(** apitypes.PublicKeySegment, registry.ClaimedKeyPair and
    registry.MachineTokenCreationSegment *)
Record PublicKeySegment : Type := mkPublicKeySegment {
  seg_PublicKey : PublicKeyEnv;
  seg_Claims : list ClaimEnv
}.
Record ClaimedKeyPair : Type := mkClaimedKeyPair {
  ckp_PublicKeySegment : PublicKeySegment;
  ckp_PrivateKey : PrivateKeyEnv
}.
Record MachineTokenCreationSegment : Type := mkSegment {
  Token : MachineToken;
  Keypairs : list ClaimedKeyPair
}.

(** Keyring memberships: V1 records (posted as a batch) and V2 records
    (posted one by one). *)
Definition Membership : Type := string.
Definition KeyringMember : Type := string.

(** Modelled from the spec: the session store in its second shape (package
    [daemon/session], not among the translated files): a machine session is
    [{machine, token, secret, auth_token}]; a session is created empty and
    populating a populated session fails.  [AuthID] is the id of the object
    the session authenticates with, the token envelope. *)
Inductive SessionType : Type := NotLoggedIn | UserSession | MachineSession.

Inductive Session : Type :=
| Empty
| Machine_ (machine : Machine) (token : MachineToken) (secret authToken : string).

Definition NewSession : Session := Empty.

Definition Set_ (t : SessionType) (identity : Machine) (auth : MachineToken)
    (passphrase token : string) (s : Session) : result Session :=
  match s, t with
  | Empty, MachineSession => Ok (Machine_ identity auth passphrase token)
  | Empty, _ => Err (ErrorString "session type does not match the identity")
  | _, _ => Err (ErrorString "session already populated")
  end.

Definition AuthID (s : Session) : ID :=
  match s with
  | Empty => ""
  | Machine_ _ token _ _ => tok_ID token
  end.

(** crypto.Engine: built from a session (the guard is not modelled). *)
Record CryptoEngine : Type := NewEngine { engine_session : Session }.

(** The collaborators of the logic engine, over a world [W] that holds the
    random source, the clock, the registry and the engine's own session. *)
Class Env (W : Type) : Type := {
  crypto_GenerateSalt : W -> result string * W;
  crypto_DeriveLoginKeypair : string -> string -> W -> result LoginKeypair * W;
  crypto_CreateMasterKeyObject : string -> option string -> W -> result MasterKey * W;
  identity_NewMutable : MachineTokenBody -> W -> result ID * W;
  time_Now_UTC : W -> Z * W;
  engine_session_ID : W -> ID;
  Engine_GenerateKeyPairs : CryptoEngine -> W -> result KeyPairs * W;
  Engine_SignedClaim : CryptoEngine -> RawClaim -> ID -> KeyPair -> W -> result ClaimEnv * W;
  packageSigningKeypair :
    CryptoEngine -> ID -> ID -> KeyPairs -> W -> result (PublicKeyEnv * PrivateKeyEnv) * W;
  packageEncryptionKeypair :
    CryptoEngine -> ID -> ID -> KeyPairs -> PublicKeyEnv -> W ->
    result (PublicKeyEnv * PrivateKeyEnv) * W;
  primitive_NewClaim : ID -> ID -> ID -> ID -> string -> RawClaim;
  createKeyringMemberships :
    ID -> ID -> W -> result (list Membership * list KeyringMember) * W;
  KeyringMember_Post : list Membership -> W -> option error * W;
  Keyring_Members_Post : KeyringMember -> W -> option error * W
}.

(** The observable calls: progress notifications and the membership posts,
    each post with the error it returned. *)
Inductive Event : Type :=
| EvNotify (message : string)
| EvPostBatch (members : list Membership) (err : option error)
| EvPostMember (member : KeyringMember) (err : option error).

Record State (W : Type) : Type := mkState { world : W; trace : list Event }.
Arguments mkState {W}.
Arguments world {W}.
Arguments trace {W}.

Section Machine.
Context {W : Type} `{Env W}.

Definition onWorld {A} (f : W -> A * W) : Eff (State W) A :=
  fun st => let (a, w') := f (world st) in (a, mkState w' (trace st)).

Definition emit (e : Event) : Eff (State W) unit :=
  fun st => (tt, mkState (world st) (trace st ++ [e])).

Definition Notify (message : string) : Eff (State W) unit :=
  emit (EvNotify message).

Definition sessionID : Eff (State W) ID :=
  fun st => (engine_session_ID (world st), st).

(** [generateKeypairs] *)
Definition generateKeypairs (c : CryptoEngine) (orgID authID : ID) (kp : KeyPairs)
    : Eff (State W) (result (list ClaimedKeyPair)) :=
  let* r := onWorld (packageSigningKeypair c authID orgID kp) in
  match r with
  | Err err => ret (Err err)
  | Ok (pubsig, privsig) =>
    let rawsigClaim :=
      primitive_NewClaim orgID authID (pk_ID pubsig) (pk_ID pubsig) SignatureClaimType in
    let* r := onWorld (Engine_SignedClaim c rawsigClaim (pk_ID pubsig) (Signature kp)) in
    match r with
    | Err err => ret (Err err)
    | Ok sigclaim =>
      let* r := onWorld (packageEncryptionKeypair c authID orgID kp pubsig) in
      match r with
      | Err err => ret (Err err)
      | Ok (pubenc, privenc) =>
        let rawencClaim :=
          primitive_NewClaim orgID authID (pk_ID pubenc) (pk_ID pubenc) SignatureClaimType in
        let* r := onWorld (Engine_SignedClaim c rawencClaim (pk_ID pubsig) (Signature kp)) in
        match r with
        | Err err => ret (Err err)
        | Ok encclaim =>
          ret (Ok [ mkClaimedKeyPair (mkPublicKeySegment pubsig [sigclaim]) privsig;
                    mkClaimedKeyPair (mkPublicKeySegment pubenc [encclaim]) privenc ])
        end
      end
    end
  end.

(** [Machine.CreateToken] *)
Definition CreateToken (machine : Machine) (secret : string)
    : Eff (State W) (result MachineTokenCreationSegment) :=
  Notify "Generating machine token" ;;
  let* r := onWorld crypto_GenerateSalt in
  match r with
  | Err err => ret (Err err)
  | Ok salt =>
    let* r := onWorld (crypto_DeriveLoginKeypair secret salt) in
    match r with
    | Err err => ret (Err err)
    | Ok keypair =>
      let orgID := m_OrgID (mach_Body machine) in
      let* r := onWorld (crypto_CreateMasterKeyObject secret None) in
      match r with
      | Err err => ret (Err err)
      | Ok masterKey =>
        let* createdBy := sessionID in
        let* created := onWorld time_Now_UTC in
        let tokenBody :=
          {| mt_OrgID := orgID;
             mt_MachineID := mach_ID machine;
             mt_PublicKey :=
               {| lpk_Salt := Salt keypair;
                  lpk_Value := PublicKey keypair;
                  lpk_Alg := EdDSA |};
             mt_Master := masterKey;
             mt_CreatedBy := createdBy;
             mt_Created := created;
             mt_DestroyedBy := None;
             mt_Destroyed := None;
             mt_State := MachineTokenActiveState |} in
        let* r := onWorld (identity_NewMutable tokenBody) in
        match r with
        | Err err => ret (Err err)
        | Ok tokenID =>
          let token :=
            {| tok_ID := tokenID; tok_Version := 1; tok_Body := tokenBody |} in
          match Set_ MachineSession machine token secret "hello" NewSession with
          | Err err => ret (Err err)
          | Ok sess =>
            let c := NewEngine sess in
            Notify "Generating token keypairs" ;;
            let* r := onWorld (Engine_GenerateKeyPairs c) in
            match r with
            | Err err => ret (Err err)
            | Ok kp =>
              let authID := AuthID sess in
              let* r := generateKeypairs c orgID authID kp in
              match r with
              | Err err => ret (Err err)
              | Ok keypairs =>
                ret (Ok {| Token := token; Keypairs := keypairs |})
              end
            end
          end
        end
      end
    end
  end.

Definition postBatch (members : list Membership) : Eff (State W) (option error) :=
  let* err := onWorld (KeyringMember_Post members) in
  emit (EvPostBatch members err) ;; ret err.

Definition postMember (member : KeyringMember) : Eff (State W) (option error) :=
  let* err := onWorld (Keyring_Members_Post member) in
  emit (EvPostMember member err) ;; ret err.

(** The loop [for _, member := range v2members] of EncodeToken, with its
    return inside the loop and the [return nil] that follows it. *)
Fixpoint postMembers (v2members : list KeyringMember) : Eff (State W) (option error) :=
  match v2members with
  | [] => ret None
  | member :: rest =>
    let* err := postMember member in
    match err with
    | Some err => ret (Some err)
    | None => postMembers rest
    end
  end.

(** [Machine.EncodeToken] *)
Definition EncodeToken (token : MachineToken) : Eff (State W) (option error) :=
  Notify "Creating keyring memberships for token" ;;
  let* r := onWorld (createKeyringMemberships (mt_OrgID (tok_Body token)) (tok_ID token)) in
  match r with
  | Err err => ret (Some err)
  | Ok (v1members, v2members) =>
    Notify "Uploading keyring memberships" ;;
    let* err :=
      if negb (length v1members =? 0)%nat then postBatch v1members else ret None in
    match err with
    | Some err => ret (Some err)
    | None => postMembers v2members
    end
  end.

End Machine.

End logic.

(** ** The operating system's files, as far as [writeEnvironmentFile] uses
       them *)

Module os.

(** Directories and regular files by absolute path, each with its permission
    bits, and the process umask.  Ownership and permission checks are not
    modelled: an operation fails only for a missing or mistyped path. *)
Record File : Type := mkFile { content : string; mode : Z }.

Record FS : Type := mkFS {
  dirs : gmap string Z;
  files : gmap string File;
  umask : Z
}.

Definition ErrNotExist : error := ErrorString "no such file or directory".
Definition ErrExist : error := ErrorString "file exists".
Definition ErrIsDir : error := ErrorString "is a directory".

Definition IsNotExist (err : option error) : bool :=
  match err with
  | Some (ErrorString msg) => String.eqb msg "no such file or directory"
  | _ => false
  end.

(** The directory part and the last element of a path that has a slash. *)
Fixpoint split_last (p : string) : option (string * string) :=
  match p with
  | EmptyString => None
  | String c rest =>
    match split_last rest with
    | Some (d, b) => Some (String c d, b)
    | None => if Ascii.eqb c "/"%char then Some (EmptyString, rest) else None
    end
  end.

(** filepath.Dir, for paths without trailing slash. *)
Definition Dir (p : string) : string :=
  match split_last p with
  | Some (EmptyString, _) => "/"
  | Some (d, _) => d
  | None => "."
  end.

(** filepath.Join of two clean, non-empty elements. *)
Definition Join (a b : string) : string := a ++ "/" ++ b.

Definition exists_ (p : string) (fs : FS) : bool :=
  bool_decide (is_Some (dirs fs !! p)) || bool_decide (is_Some (files fs !! p)).

Definition Stat (p : string) : Eff FS (option error) :=
  fun fs => (if exists_ p fs then None else Some ErrNotExist, fs).

Definition Mkdir (p : string) (perm : Z) : Eff FS (option error) :=
  fun fs =>
    if exists_ p fs then (Some ErrExist, fs)
    else if bool_decide (is_Some (dirs fs !! Dir p)) then
      (None, mkFS (<[p := Z.ldiff perm (umask fs)]> (dirs fs)) (files fs) (umask fs))
    else (Some ErrNotExist, fs).

(** os.Create: open for writing, create with 0666 (before umask) when
    missing, truncate when present (the mode of a present file is kept).
    The handle is the path. *)
Definition Create (p : string) : Eff FS (result string) :=
  fun fs =>
    if bool_decide (is_Some (dirs fs !! p)) then (Err ErrIsDir, fs)
    else if bool_decide (is_Some (dirs fs !! Dir p)) then
      let m := match files fs !! p with
               | Some f => mode f
               | None => Z.ldiff 438 (umask fs)       (* 0666 &^ umask *)
               end in
      (Ok p, mkFS (dirs fs) (<[p := mkFile "" m]> (files fs)) (umask fs))
    else (Err ErrNotExist, fs).

Definition Chmod (p : string) (perm : Z) : Eff FS (option error) :=
  fun fs =>
    match files fs !! p, dirs fs !! p with
    | Some f, _ =>
      (None, mkFS (dirs fs) (<[p := mkFile (content f) perm]> (files fs)) (umask fs))
    | None, Some _ => (None, mkFS (<[p := perm]> (dirs fs)) (files fs) (umask fs))
    | None, None => (Some ErrNotExist, fs)
    end.

(** Write at the end of an open file. *)
Definition File_Write (f : string) (data : string) : Eff FS (option error) :=
  fun fs =>
    match files fs !! f with
    | Some file =>
      (None, mkFS (dirs fs) (<[f := mkFile (content file ++ data) (mode file)]> (files fs))
                  (umask fs))
    | None => (Some ErrNotExist, fs)
    end.

End os.

(** bufio.Writer: what is written stays in the buffer until [Flush]. *)
Module bufio.

Record Writer : Type := mkWriter { file : string; buf : string }.

Definition NewWriter (f : string) : Writer := mkWriter f "".

Definition WriteString (w : Writer) (s : string) : Writer :=
  mkWriter (file w) (buf w ++ s).

Definition Flush (w : Writer) : Eff os.FS (option error) :=
  os.File_Write (file w) (buf w).

End bufio.

(** ** cmd: machine bootstrap *)

Module cmd.

Definition GlobalRoot : string := "/etc/torus".
Definition EnvironmentFile : string := "token.environment".

(** The line feed of the two format strings. *)
Definition LF : string := String (Ascii.ascii_of_nat 10) EmptyString.

(** bootstrap.Response, as far as the command reads it. *)
Record BootstrapResponse : Type := mkResponse { resp_Token : string; resp_Secret : string }.

(** The [String()] methods that [%s] applies to an identity.ID and to a
    base64.Value, and the gatekeeper's [bootstrap.Do]. *)
Class Env : Type := {
  ID_String : string -> string;
  Value_String : string -> string;
  bootstrap_Do : string -> string -> string -> string -> string -> string ->
                 result BootstrapResponse
}.

Section Bootstrap.
Context `{Env}.

(** [writeEnvironmentFile] *)
Definition writeEnvironmentFile (token secret : string) : Eff os.FS (option error) :=
  let* err := os.Stat GlobalRoot in
  (if os.IsNotExist err then (let* _ := os.Mkdir GlobalRoot 448 in ret tt) (* 0700 *)
   else ret tt) ;;
  let envPath := os.Join GlobalRoot EnvironmentFile in
  let* r := os.Create envPath in
  match r with
  | Err err => ret (Some err)
  | Ok f =>
    let* _ := os.Chmod envPath 384 in                               (* 0600 *)
    let w := bufio.NewWriter f in
    let w := bufio.WriteString w ("TORUS_TOKEN_ID=" ++ ID_String token ++ LF) in
    let w := bufio.WriteString w ("TORUS_TOKEN_SECRET=" ++ Value_String secret ++ LF) in
    let* _ := bufio.Flush w in
    ret None
  end.

(** [bootstrapCmd], applied to the values of its flags. *)
Definition bootstrapCmd (auth url machine org role ca : string)
    : Eff os.FS (option error) :=
  match bootstrap_Do auth url machine org role ca with
  | Err err => ret (Some (Errorf "bootstrap provision failed: %s" [] err))
  | Ok resp =>
    let envFile := os.Join GlobalRoot EnvironmentFile in
    let* err := writeEnvironmentFile (resp_Token resp) (resp_Secret resp) in
    match err with
    | Some err =>
      ret (Some (Errorf "failed to write environment file[%s]: %s" [envFile] err))
    | None => ret None
    end
  end.

End Bootstrap.

End cmd.

(** ** api: the credentials client of the CLI *)

Module api.

Definition ID : Type := string.

(** json.RawMessage: the undecoded bytes of a body. *)
Definition RawMessage : Type := string.

(** url.Values with its [Set] and [Add]. *)
Abbreviation Values := (gmap string (list string)).

Definition Values_Set (key value : string) (v : Values) : Values :=
  <[key := [value]]> v.

Definition Values_Add (key value : string) (v : Values) : Values :=
  <[key := default [] (v !! key) ++ [value]]> v.

(** apitypes.CredentialResp: what the daemon answers per credential. *)
Record CredentialResp : Type := mkCredentialResp {
  resp_ID : ID;
  resp_Version : Z;
  resp_Body : RawMessage
}.

(** apitypes.BaseCredential (version 1) and apitypes.CredentialV2.  [Value]
    is a pointer in Go: [None] when the body carries no value. *)
Record BaseCredential : Type := mkBaseCredential {
  Name : string;
  PathExp : string;
  Value : option string
}.

Record CredentialV2 : Type := mkCredentialV2 {
  Base : BaseCredential;
  State : option string
}.

(** The interface apitypes.Credential with its two implementations. *)
Inductive Credential : Type :=
| V1 (b : BaseCredential)
| V2 (b : CredentialV2).


(** apitypes.CredentialEnvelope *)
Record CredentialEnvelope : Type := mkCredentialEnvelope {
  env_ID : ID;
  env_Version : Z;
  env_Body : Credential
}.

(** encoding/json for the two bodies, and identity.ID's [String()]. *)
Class Codec : Type := {
  Unmarshal_BaseCredential : RawMessage -> result BaseCredential;
  Unmarshal_CredentialV2 : RawMessage -> result CredentialV2;
  ID_String : ID -> string
}.

(** The round trip to the daemon over its socket, for a daemon in state [D]:
    method, path, query; the answer is decoded into credential responses. *)
Class Daemon (D : Type) : Type := {
  DaemonRoundTrip : string -> string -> Values -> D -> result (list CredentialResp) * D
}.

Section CredentialsClient.
Context `{Codec} {D : Type} `{Daemon D}.

(** The loop of [createEnvelopesFromResp] over the remaining responses,
    [results] being the envelopes appended so far. *)
Fixpoint createEnvelopes (resp : list CredentialResp) (results : list CredentialEnvelope)
    : result (list CredentialEnvelope) :=
  match resp with
  | [] => Ok results
  | c :: rest =>
    if (resp_Version c =? 1)%Z then
      match Unmarshal_BaseCredential (resp_Body c) with
      | Err err => Err err
      | Ok cBodyV1 =>
        createEnvelopes rest
          (results ++ [mkCredentialEnvelope (resp_ID c) (resp_Version c) (V1 cBodyV1)])
      end
    else if (resp_Version c =? 2)%Z then
      match Unmarshal_CredentialV2 (resp_Body c) with
      | Err err => Err err
      | Ok cBodyV2 =>
        createEnvelopes rest
          (results ++ [mkCredentialEnvelope (resp_ID c) (resp_Version c) (V2 cBodyV2)])
      end
    else Err (ErrorString "Unknown credential version")
  end.

(** [createEnvelopesFromResp] *)
Definition createEnvelopesFromResp (resp : list CredentialResp)
    : result (list CredentialEnvelope) :=
  createEnvelopes resp [].

(** [CredentialsClient.listWorker] *)
Definition listWorker (v : Values) : Eff D (result (list CredentialEnvelope)) :=
  let* r := DaemonRoundTrip "GET" "/credentials" v in
  match r with
  | Err err => ret (Err err)
  | Ok resp => ret (createEnvelopesFromResp resp)
  end.

(** The query [CredentialsClient.Search] builds. *)
Definition Search_query (pathexp : string) (teamIDs : option (list ID)) : Values :=
  let v := Values_Set "pathexp" pathexp ∅ in
  let v := Values_Set "skip-decryption" "true" v in
  match teamIDs with
  | Some ids => fold_left (fun v t => Values_Add "team_id" (ID_String t) v) ids v
  | None => v
  end.

(** [CredentialsClient.Search] *)
Definition Search (pathexp : string) (teamIDs : option (list ID))
    : Eff D (result (list CredentialEnvelope)) :=
  listWorker (Search_query pathexp teamIDs).

(** [CredentialsClient.Get] *)
Definition Get (path : string) : Eff D (result (list CredentialEnvelope)) :=
  listWorker (Values_Set "path" path ∅).

End CredentialsClient.

End api.

(** ** The daemon's side of GET /credentials *)

Module credentials_route.

Import api.

(** A credential as the registry stores it: the value is sealed under the
    master encryption key of its keyring. *)
Record Sealed : Type := mkSealed {
  s_ID : ID;
  s_Version : Z;
  s_KeyringID : ID;
  s_Name : string;
  s_PathExp : string;
  s_Nonce : string;
  s_Value : string
}.

(** What the handler marshals per credential. *)
Record PlaintextCredential : Type := mkPlaintextCredential {
  pc_Name : string;
  pc_PathExp : string;
  pc_Value : option string;
  pc_State : option string
}.

(** The daemon: what the registry lists for a path and for a path
    expression, and the keyring master encryption keys the session's
    memberships give access to. *)
Record DaemonState : Type := mkDaemonState {
  list_path : string -> list Sealed;
  list_pathexp : string -> list Sealed;
  MEK : gmap ID string
}.

(** The crypto engine's unboxing of a credential value and the JSON encoder
    of the response bodies. *)
Class Crypto : Type := {
  Unbox : string -> string -> string -> result string;
  Marshal : PlaintextCredential -> RawMessage
}.

Section Route.
Context `{Crypto}.

Definition first (vs : option (list string)) : string :=
  match vs with
  | Some (x :: _) => x
  | _ => ""
  end.

Definition respond (c : Sealed) (value : option string) : CredentialResp :=
  mkCredentialResp (s_ID c) (s_Version c)
    (Marshal (mkPlaintextCredential (s_Name c) (s_PathExp c) value None)).

(** Decrypt one credential with the master encryption key of its keyring. *)
Definition decrypt (d : DaemonState) (c : Sealed) : result string :=
  match MEK d !! s_KeyringID c with
  | None => Err (ErrorString "no keyring membership")
  | Some mek => Unbox mek (s_Nonce c) (s_Value c)
  end.

Fixpoint decryptAll (d : DaemonState) (cs : list Sealed) : result (list CredentialResp) :=
  match cs with
  | [] => Ok []
  | c :: rest =>
    match decrypt d c with
    | Err err => Err err
    | Ok pt =>
      match decryptAll d rest with
      | Err err => Err err
      | Ok rs => Ok (respond c (Some pt) :: rs)
      end
    end
  end.

(** Modelled from the spec: the daemon's handler for GET /credentials (the
    route and [logic] code behind it are not among the translated files):
    list the credentials at a path or path expression from the registry,
    decrypt each using the keyring master encryption key obtained via the
    session's membership, and return them with decrypted bodies.  The
    query parameter [skip-decryption=true], which [Search] sets, asks for
    the listed credentials in an undecrypted state, as the documentation
    of [Search] says: the bodies then carry no value. *)
Definition credentialsGet (v : Values) (d : DaemonState) : result (list CredentialResp) :=
  let listed :=
    match v !! "path" with
    | Some _ => list_path d (first (v !! "path"))
    | None => list_pathexp d (first (v !! "pathexp"))
    end in
  if String.eqb (first (v !! "skip-decryption")) "true"
  then Ok (map (fun c => respond c None) listed)
  else decryptAll d listed.

#[export] Instance daemon : Daemon DaemonState := {
  DaemonRoundTrip method path v d :=
    if String.eqb method "GET" && String.eqb path "/credentials"
    then (credentialsGet v d, d)
    else (Err (ErrorString "not found"), d)
}.

End Route.

End credentials_route.

(** ** Reading traces *)

Module Trace.

(** [beforeb p q l]: some element satisfying [p] occurs in [l] strictly
    before some element satisfying [q]. *)
Fixpoint beforeb {A} (p q : A -> bool) (l : list A) : bool :=
  match l with
  | [] => false
  | x :: rest => (p x && existsb q rest) || beforeb p q rest
  end.

End Trace.

(** Classification of the events of the routes. *)
Module route_events.

Import routes.

Definition is_response (e : Event) : bool :=
  match e with
  | EvWriteHeader _ | EvEncode _ | EvEncodeResponseErr _ => true
  | _ => false
  end.

Definition is_session_set (e : Event) : bool :=
  match e with EvSessionSet _ _ _ => true | _ => false end.

Definition is_db_set (e : Event) : bool :=
  match e with EvDbSet _ => true | _ => false end.

(** The calls made on the http.ResponseWriter, in order. *)
Definition response (tr : list Event) : list Event := filter (fun e => is_response e = true) tr.

(** The events a run appended: those of [st'] after those of [st]. *)
Definition new_events {R} (st st' : State R) : list Event :=
  drop (length (trace st)) (trace st').

(** The order of steps of a successful login as the specification words it:
    post_login, HMAC, post_auth, get_self, populate the session, persist
    self, 204. *)
Definition specified_login_steps (tr : list Event) : Prop :=
  exists email passphrase salt loginToken hmac authToken self,
    tr = [ EvPostLogin email;
           EvDeriveLoginHMAC passphrase salt loginToken;
           EvPostAuth loginToken hmac;
           EvGetSelf authToken;
           EvSessionSet (ID self) passphrase authToken;
           EvDbSet self;
           EvWriteHeader StatusNoContent ].

(** A step of the login sequence fails with [err], for the request [body]
    and a registry in state [r]: the decoding of the request, post_login,
    the HMAC derivation, post_auth or get_self. *)
Inductive step_fails {R} `{Env R} (body : string) (r : R) (err : error) : Prop :=
| fails_decode :
    Decode_login body = Err err -> step_fails body r err
| fails_post_login creds r1 :
    Decode_login body = Ok creds ->
    Email creds <> "" -> Passphrase creds <> "" ->
    Tokens_PostLogin (Email creds) r = (Err err, r1) ->
    step_fails body r err
| fails_hmac creds salt loginToken r1 :
    Decode_login body = Ok creds ->
    Email creds <> "" -> Passphrase creds <> "" ->
    Tokens_PostLogin (Email creds) r = (Ok (salt, loginToken), r1) ->
    DeriveLoginHMAC (Passphrase creds) salt loginToken = Err err ->
    step_fails body r err
| fails_post_auth creds salt loginToken hmac r1 r2 :
    Decode_login body = Ok creds ->
    Email creds <> "" -> Passphrase creds <> "" ->
    Tokens_PostLogin (Email creds) r = (Ok (salt, loginToken), r1) ->
    DeriveLoginHMAC (Passphrase creds) salt loginToken = Ok hmac ->
    Tokens_PostAuth loginToken hmac r1 = (Err err, r2) ->
    step_fails body r err
| fails_get_self creds salt loginToken hmac authToken r1 r2 r3 :
    Decode_login body = Ok creds ->
    Email creds <> "" -> Passphrase creds <> "" ->
    Tokens_PostLogin (Email creds) r = (Ok (salt, loginToken), r1) ->
    DeriveLoginHMAC (Passphrase creds) salt loginToken = Ok hmac ->
    Tokens_PostAuth loginToken hmac r1 = (Ok authToken, r2) ->
    Users_GetSelf authToken r2 = (Err err, r3) ->
    step_fails body r err.

End route_events.

(** Classification of the events of the daemon's lifecycle. *)
Module daemon_events.

Import daemon.

Definition Login_eqb (a b : Login) : bool :=
  match a, b with
  | UserLogin e p, UserLogin e' p' => String.eqb e e' && String.eqb p p'
  | MachineLogin i s, MachineLogin i' s' => String.eqb i i' && String.eqb s s'
  | _, _ => false
  end.


Definition is_listen (e : Event) : bool :=
  match e with EvProxyListen => true | _ => false end.

Definition is_unlock (e : Event) : bool :=
  match e with EvLockUnlock => true | _ => false end.

Definition is_updates_stop (e : Event) : bool :=
  match e with EvUpdatesStop => true | _ => false end.

Definition new_events {W} (d d' : Daemon W) : list Event :=
  drop (length (trace d)) (trace d').

(** The steps of a shutdown as [Shutdown] takes them. *)
Definition shutdown_steps : list Event :=
  [EvLockUnlock; EvProxyClose; EvDbClose; EvUpdatesStop].

(** The steps of a shutdown in the order the specification gives. *)
Definition specified_shutdown_steps : list Event :=
  [EvUpdatesStop; EvProxyClose; EvDbClose; EvLockUnlock].

End daemon_events.

(** Reading the membership posts off a trace of the logic engine. *)
Module logic_events.

Import logic.

(** A request to one of the two member endpoints. *)
Inductive Post : Type :=
| Batch (members : list Membership)      (* POST of all V1 members at once *)
| Member (member : KeyringMember).       (* POST of one V2 member *)

Definition post_of (e : Event) : option (Post * option error) :=
  match e with
  | EvPostBatch members err => Some (Batch members, err)
  | EvPostMember member err => Some (Member member, err)
  | EvNotify _ => None
  end.

Definition event_of (p : Post * option error) : Event :=
  match p with
  | (Batch members, err) => EvPostBatch members err
  | (Member member, err) => EvPostMember member err
  end.

(** The posts of a trace with the error each returned, in order. *)
Definition posts (tr : list Event) : list (Post * option error) := omap post_of tr.

Definition new_events {W} (st st' : State W) : list Event :=
  drop (length (trace st)) (trace st').

(** The posts EncodeToken has to make for the derived memberships: the V1
    members as one batch, unless there are none, then each V2 member. *)
Definition expected_posts (v1 : list Membership) (v2 : list KeyringMember) : list Post :=
  match v1 with
  | [] => map Member v2
  | _ :: _ => Batch v1 :: map Member v2
  end.

(** Every post of the list returned nil. *)
Definition all_ok (ps : list (Post * option error)) : Prop :=
  Forall (fun p => snd p = None) ps.

(** How a run over posts ended: with nil after all of them succeeded, or with
    the error of the post made last, all posts before it having succeeded. *)
Definition ended (res : option error) (posted : list (Post * option error)) : Prop :=
  match res with
  | None => all_ok posted
  | Some err => exists before p, posted = before ++ [(p, Some err)] /\ all_ok before
  end.

End logic_events.

(** What an envelope returned by the client carries, relative to the
    credential the registry listed. *)
Module credentials_props.

Import api credentials_route.

Section Carries.
Context `{Codec} `{Crypto}.

(** The envelope [env] is the client's decoding of the response [r]: same id
    and version, and the body decoded from the response body according to
    the version. *)
Definition decoded (env : CredentialEnvelope) (r : CredentialResp) : Prop :=
  env_ID env = resp_ID r /\
  env_Version env = resp_Version r /\
  ((resp_Version r = 1 /\
    exists b, Unmarshal_BaseCredential (resp_Body r) = Ok b /\ env_Body env = V1 b) \/
   (resp_Version r = 2 /\
    exists b, Unmarshal_CredentialV2 (resp_Body r) = Ok b /\ env_Body env = V2 b)).



End Carries.

End credentials_props.

(** ** Concrete collaborators, for running the handlers *)

Module demo.

(** A registry that knows one user, [a@b] with passphrase [p]; its state
    counts the requests served.  The HMAC is a stand-in that concatenates
    its inputs; request bodies are written [email passphrase]. *)
Definition alice : routes.User := routes.mkUser "user-alice" "profile".

#[global] Instance registry : routes.Env nat := {
  routes.Tokens_PostLogin email n :=
    (if String.eqb email "a@b" then Ok ("salt", "login-token")
     else Err (RegistryError 404 "no such user"), S n);
  routes.Tokens_PostAuth loginToken hmac n :=
    (if String.eqb hmac "p|salt|login-token" then Ok "auth-token"
     else Err (RegistryError 401 "bad hmac"), S n);
  routes.Tokens_Delete tok n :=
    (if String.eqb tok "auth-token" then None
     else if String.eqb tok "stale" then Some (RegistryError 404 "no such token")
     else Some (RegistryError 503 "unavailable"), S n);
  routes.Users_GetSelf authToken n :=
    (if String.eqb authToken "auth-token" then Ok alice
     else Err (RegistryError 401 "unauthorized"), S n);
  routes.DeriveLoginHMAC p salt loginToken :=
    Ok (p ++ "|" ++ salt ++ "|" ++ loginToken)%string;
  routes.Decode_login body :=
    if String.eqb body "a@b p" then Ok (routes.mkLogin "a@b" "p")
    else if String.eqb body "a@b q" then Ok (routes.mkLogin "a@b" "q")
    else if String.eqb body "a@b" then Ok (routes.mkLogin "a@b" "")
    else Err (ErrorString "unexpected end of JSON input")
}.

(** A fresh daemon: empty session, empty DB, nothing served yet. *)
Definition fresh : routes.State nat := routes.mkState 0%nat session.NewSession ∅ [].

(** A daemon whose session holds the token [tok]. *)
Definition logged_in (tok : string) : routes.State nat :=
  routes.mkState 0%nat (session.mkSession "user-alice" "p" tok) ∅ [].

(** A machine on which the daemon runs: the process environment and the
    names of the components that are out of order ([login], [lock],
    [proxy], [db], [updates]).  Identities and secrets decode to themselves,
    except that the empty string is no identity. *)
Record Host : Type := mkHost { environ : gmap string string; broken : list string }.

Definition works (component : string) (h : Host) : option error :=
  if existsb (String.eqb component) (broken h)
  then Some (ErrorString (component ++ " is out of order")%string)
  else None.

#[global] Instance host : daemon.Env Host := {
  daemon.os_LookupEnv name h := environ h !! name;
  daemon.identity_DecodeFromString s :=
    if String.eqb s "" then Err (ErrorString "invalid identity") else Ok s;
  daemon.base64_NewFromString s := Ok s;
  daemon.Session_Login l h := (works "login" h, h);
  daemon.updates_Start h := (works "updates" h, h);
  daemon.updates_Stop h := (works "updates" h, h);
  daemon.proxy_Listen h := (works "proxy" h, h);
  daemon.proxy_Close h := (works "proxy" h, h);
  daemon.db_Close h := (works "db" h, h);
  daemon.lock_Unlock h := (works "lock" h, h)
}.

(** A daemon just created on a host. *)
Definition started (h : Host) : daemon.Daemon Host := daemon.mkDaemon h false [].

Definition both_pairs : gmap string string :=
  <["TORUS_EMAIL" := "a@b"]> (<["TORUS_PASSWORD" := "p"]>
  (<["TORUS_TOKEN_ID" := "token-1"]> (<["TORUS_TOKEN_SECRET" := "c2VjcmV0"]> ∅))).


(** A logic engine over a counter: the counter numbers the calls that draw
    from the random source or reach the registry.  Keys and seals are
    stand-ins built by concatenation.  The organisation [org-1] has two V1 and
    three V2 memberships to derive, [org-2] only one of V2; the registry
    refuses the V2 member [k2]. *)
#[global] Instance engine : logic.Env nat := {
  logic.crypto_GenerateSalt n := (Ok "c2FsdA", S n);
  logic.crypto_DeriveLoginKeypair secret salt n :=
    (Ok (logic.mkLoginKeypair salt ("pub:" ++ secret ++ ":" ++ salt)
                              ("priv:" ++ secret ++ ":" ++ salt))%string, n);
  logic.crypto_CreateMasterKeyObject secret _ n :=
    (Ok (logic.mkMasterKey "triplesec-v3" ("sealed:" ++ secret)%string), S n);
  logic.identity_NewMutable _ n := (Ok "token-1", S n);
  logic.time_Now_UTC n := (1700000000, n);
  logic.engine_session_ID _ := "user-alice";
  logic.Engine_GenerateKeyPairs _ n :=
    (Ok (logic.mkKeyPairs (logic.mkKeyPair "sig-pub" "sig-priv")
                          (logic.mkKeyPair "enc-pub" "enc-priv")), S n);
  logic.Engine_SignedClaim _ raw signer _ n :=
    (Ok (logic.mkClaimEnv "claim" raw ("signed-by:" ++ signer)%string), S n);
  logic.packageSigningKeypair _ _ _ kp n :=
    (Ok (logic.mkPublicKeyEnv "pk-sig" (logic.kp_Public (logic.Signature kp)),
         logic.mkPrivateKeyEnv "sk-sig" "sealed-sig"), S n);
  logic.packageEncryptionKeypair _ _ _ kp _ n :=
    (Ok (logic.mkPublicKeyEnv "pk-enc" (logic.kp_Public (logic.Encryption kp)),
         logic.mkPrivateKeyEnv "sk-enc" "sealed-enc"), S n);
  logic.primitive_NewClaim orgID ownerID a b claimType :=
    (orgID ++ "/" ++ ownerID ++ "/" ++ a ++ "/" ++ b ++ "/" ++ claimType)%string;
  logic.createKeyringMemberships orgID _ n :=
    (if String.eqb orgID "org-1" then Ok (["m1"; "m2"], ["k1"; "k2"; "k3"])
     else if String.eqb orgID "org-2" then Ok ([], ["k1"])
     else Err (RegistryError 404 "no such org"), S n);
  logic.KeyringMember_Post _ n := (None, S n);
  logic.Keyring_Members_Post member n :=
    (if String.eqb member "k2" then Some (RegistryError 500 "refused") else None, S n)
}.

Definition worker : logic.Machine :=
  logic.mkMachine "machine-1" 1 (logic.mkMachineBody "org-1" "workers-abc12").

Definition engine_start : logic.State nat := logic.mkState 0%nat [].

(** A token of [org], as EncodeToken receives it. *)
Definition token_of (org : string) : logic.MachineToken :=
  logic.mkMachineToken "token-1" 1
    (logic.mkMachineTokenBody org "machine-1"
       (logic.mkLoginPublicKey "c2FsdA" "pub" logic.EdDSA)
       (logic.mkMasterKey "triplesec-v3" "sealed")
       "user-alice" 1700000000 None None logic.MachineTokenActiveState).


(** The gatekeeper answers at one URL; identities and secrets print as they
    are. *)
#[global] Instance gatekeeper : cmd.Env := {
  cmd.ID_String s := s;
  cmd.Value_String s := s;
  cmd.bootstrap_Do auth url machine org role ca :=
    if String.eqb url "https://gatekeeper.test"
    then Ok (cmd.mkResponse "token-1" "c2VjcmV0")
    else Err (ErrorString "connection refused")
}.

(** A disk with [/] and [/etc] (umask 022), and the same disk with an older
    world-readable environment file in place. *)
Definition disk : os.FS := os.mkFS (<["/" := 493]> (<["/etc" := 493]> ∅)) ∅ 18.


(** A disk without [/etc]. *)
Definition bare_disk : os.FS := os.mkFS (<["/" := 493]> ∅) ∅ 18.


(** A codec and a crypto engine to run the credentials client against: a
    body is written [pathexp name] or [pathexp name=value]; a value sealed
    under the key [k] is [k:value]. *)
Fixpoint split_at (sep : ascii) (s : string) : string * option string :=
  match s with
  | EmptyString => (EmptyString, None)
  | String c rest =>
    if Ascii.eqb c sep then (EmptyString, Some rest)
    else let (a, b) := split_at sep rest in (String c a, b)
  end.

Definition parse_body (raw : string) : api.BaseCredential :=
  let (pathexp, rest) := split_at " " raw in
  let (name, value) := split_at "=" (default EmptyString rest) in
  api.mkBaseCredential name pathexp value.

#[global] Instance codec : api.Codec := {
  api.Unmarshal_BaseCredential raw := Ok (parse_body raw);
  api.Unmarshal_CredentialV2 raw := Ok (api.mkCredentialV2 (parse_body raw) None);
  api.ID_String s := s
}.

#[global] Instance crypto : credentials_route.Crypto := {
  credentials_route.Unbox mek nonce sealed :=
    match split_at ":" sealed with
    | (k, Some value) =>
      if String.eqb k mek then Ok value else Err (ErrorString "crypto failure")
    | (_, None) => Err (ErrorString "crypto failure")
    end;
  credentials_route.Marshal p :=
    (credentials_route.pc_PathExp p ++ " " ++ credentials_route.pc_Name p ++
       match credentials_route.pc_Value p with
       | Some v => "=" ++ v
       | None => ""
       end)%string
}.

(** The one credential of the organisation, [DB_URL] under [/o/p/dev/svc],
    sealed under the key of keyring [kr-1], and a daemon whose session is a
    member of that keyring. *)
Definition db_url : credentials_route.Sealed :=
  credentials_route.mkSealed "cred-1" 2 "kr-1" "DB_URL" "/o/p/dev/svc/*/*" "n-1"
    "mek-1:postgres://x".

Definition member_daemon : credentials_route.DaemonState :=
  credentials_route.mkDaemonState
    (fun path => if String.eqb path "/o/p/dev/svc" then [db_url] else [])
    (fun pathexp => if String.eqb pathexp "/o/p/dev/svc/**" then [db_url] else [])
    (<["kr-1" := "mek-1"]> ∅).


End demo.

(** ** daemon/routes: the session route *)

Module routes_session.

Import session routes.

(** The JSON body of GET /v1/session. *)
Record status : Type := mkStatus { status_Token : bool; status_Passphrase : bool }.

Definition unauthorizedError : string := "unauthorized".

(** What a handler hands to the JSON encoder of the response. *)
Inductive Payload : Type :=
| ErrorMsg (m : errorMsg)
| Status (s : status).

(** The calls on the response writer and its encoder, in order. *)
Inductive Written : Type :=
| WHeader (code : Z)                 (* w.WriteHeader(code) *)
| WEncode (p : Payload)              (* enc.Encode(p) *)
| WResponseErr (err : error).        (* encodeResponseErr(w, err) *)

(** The encoder of the response: [Encode] may fail (the peer is gone). *)
Class Encoder : Type := { json_Encode : Payload -> option error }.

(** [enc.Encode(p)] followed by [if err != nil { encodeResponseErr(w, err) }]. *)
Definition encode_or_report `{Encoder} (p : Payload) : list Written :=
  WEncode p :: match json_Encode p with
               | Some err => [WResponseErr err]
               | None => []
               end.

(** [sessionRoute]: the handler for GET /v1/session; it only reads the
    session. *)
Definition sessionRoute `{Encoder} (s : Session) : list Written :=
  if negb (HasToken s && HasPassphrase s) then
    WHeader StatusNotFound ::
    encode_or_report (ErrorMsg (mkErrorMsg unauthorizedError "Not logged in"))
  else
    encode_or_report (Status (mkStatus (HasToken s) (HasPassphrase s))).

Definition is_delete (e : Event) : bool :=
  match e with EvTokensDelete _ => true | _ => false end.

Definition is_logout (e : Event) : bool :=
  match e with EvSessionLogout => true | _ => false end.

Definition is_registry_call (e : Event) : bool :=
  match e with
  | EvPostLogin _ | EvPostAuth _ _ | EvGetSelf _ | EvTokensDelete _ => true
  | _ => false
  end.

End routes_session.

(** More classifiers for the daemon's events. *)
Module daemon_events_more.

Import daemon.

Definition is_machine_login (e : Event) : bool :=
  match e with EvLogin (MachineLogin _ _) _ => true | _ => false end.

Definition is_updates_start (e : Event) : bool :=
  match e with EvUpdatesStart => true | _ => false end.

End daemon_events_more.

(** More on what the client decodes. *)
Module credentials_props_more.

Import api.

(** A response the client can turn into an envelope: version 1 or 2 with a
    body that unmarshals into the type of that version. *)
Definition decodable `{Codec} (c : CredentialResp) : Prop :=
  (resp_Version c = 1 /\ exists b, Unmarshal_BaseCredential (resp_Body c) = Ok b) \/
  (resp_Version c = 2 /\ exists b, Unmarshal_CredentialV2 (resp_Body c) = Ok b).

End credentials_props_more.

(** ** api: the teams client *)

Module api_teams.

Import api.

(** primitive.Team *)
Record Team : Type := mkTeam { Name : string; OrgID : option ID; TeamType : string }.

(** The body of an unsigned envelope is an interface value: absent, a team,
    or a body of another kind. *)
Inductive Body : Type :=
| NoBody
| TeamBody (t : Team)
| OtherBody (kind : string).

(** envelope.Unsigned *)
Record Unsigned : Type := mkUnsigned {
  u_ID : option ID;
  u_Version : Z;
  u_Body : Body
}.

(** TeamResult; its zero value has neither id nor body. *)
Record TeamResult : Type := mkTeamResult {
  tr_ID : option ID;
  tr_Version : Z;
  tr_Body : option Team
}.

Definition zeroUnsigned : Unsigned := mkUnsigned None 0 NoBody.
Definition zeroTeamResult : TeamResult := mkTeamResult None 0 None.

(** apitypes.Team, the envelope [Create] posts. *)
Record TeamEnvelope : Type := mkTeamEnvelope {
  te_ID : ID;
  te_Version : Z;
  te_Body : Team
}.

(** A request as [NewRequest] is asked to build it. *)
Record Request : Type := mkRequest {
  req_method : string;
  req_path : string;
  req_query : option Values;
  req_body : option TeamEnvelope;
  req_proxied : bool
}.

(** The client under the teams client, over the state [W] of the daemon it
    talks to: [NewRequest] may refuse a request; [Do] with a slice to decode
    into returns the slice as the decoding left it; [Do] without one only
    reports the error; identity.Mutable draws a fresh id. *)
Class Client (W : Type) : Type := {
  ID_String : ID -> string;
  NewRequest_error : Request -> option error;
  Do_into : Request -> list Unsigned -> W -> result (list Unsigned) * W;
  Do_only : Request -> W -> option error * W;
  identity_Mutable : Team -> W -> result ID * W
}.

(** The requests sent and the ids drawn, in order. *)
Inductive Event : Type :=
| EvDo (req : Request)
| EvMutable (body : Team).

Record State (W : Type) : Type := mkState { world : W; trace : list Event }.
Arguments mkState {W}.
Arguments world {W}.
Arguments trace {W}.

Section TeamsClient.
Context {W : Type} `{Client W}.

Definition NewRequest (method path : string) (query : option Values)
    (body : option TeamEnvelope) (proxied : bool) : result Request :=
  let req := mkRequest method path query body proxied in
  match NewRequest_error req with
  | Some err => Err err
  | None => Ok req
  end.

Definition call {A} (e : Event) (f : W -> A * W) : Eff (State W) A :=
  fun st => let (a, w') := f (world st) in (a, mkState w' (trace st ++ [e])).

(** The loop of [buildTeamResults]: [teamResults[i] = team] for the teams
    from index [i] on. *)
Fixpoint buildLoop (teams : list Unsigned) (i : nat) (teamResults : list TeamResult)
    : result (list TeamResult) :=
  match teams with
  | [] => Ok teamResults
  | t :: rest =>
    match u_Body t with
    | TeamBody teamBody =>
      buildLoop rest (S i)
        (<[i := mkTeamResult (u_ID t) (u_Version t) (Some teamBody)]> teamResults)
    | _ => Err (ErrorString "invalid team body")
    end
  end.

(** [buildTeamResults] *)
Definition buildTeamResults (teams : list Unsigned) : result (list TeamResult) :=
  buildLoop teams 0 (replicate (length teams) zeroTeamResult).

(** [TeamsClient.GetByOrg]; the slice to decode into is made with one
    element. *)
Definition GetByOrg (orgID : ID) : Eff (State W) (result (list TeamResult)) :=
  let v := Values_Set "org_id" (ID_String orgID) ∅ in
  match NewRequest "GET" "/teams" (Some v) None true with
  | Err err => ret (Err err)
  | Ok req =>
    let teams := replicate 1 zeroUnsigned in
    let* r := call (EvDo req) (Do_into req teams) in
    match r with
    | Err err => ret (Err err)
    | Ok teams => ret (buildTeamResults teams)
    end
  end.

(** [TeamsClient.GetByName] *)
Definition GetByName (orgID : ID) (name : string) : Eff (State W) (result (list TeamResult)) :=
  let v := Values_Set "org_id" (ID_String orgID) ∅ in
  let v := Values_Set "name" name v in
  match NewRequest "GET" "/teams" (Some v) None true with
  | Err err => ret (Err err)
  | Ok req =>
    let teams := replicate 1 zeroUnsigned in
    let* r := call (EvDo req) (Do_into req teams) in
    match r with
    | Err err => ret (Err err)
    | Ok teams => ret (buildTeamResults teams)
    end
  end.

(** [TeamsClient.Create] *)
Definition Create (orgID : option ID) (name : string) : Eff (State W) (option error) :=
  match orgID with
  | None => ret (Some (ErrorString "invalid org"))
  | Some _ =>
    let teamBody := mkTeam name orgID "user" in
    let* r := call (EvMutable teamBody) (identity_Mutable teamBody) in
    match r with
    | Err err => ret (Some err)
    | Ok ID =>
      let team := mkTeamEnvelope ID 1 teamBody in
      match NewRequest "POST" "/teams" None (Some team) true with
      | Err err => ret (Some err)
      | Ok req => call (EvDo req) (Do_only req)
      end
    end
  end.

End TeamsClient.

(** The team result an envelope gives, when its body is a team. *)
Definition as_result (t : Unsigned) : option TeamResult :=
  match u_Body t with
  | TeamBody teamBody => Some (mkTeamResult (u_ID t) (u_Version t) (Some teamBody))
  | _ => None
  end.

(** The team results of a list of envelopes, when every body is a team. *)
Fixpoint all_results (teams : list Unsigned) : option (list TeamResult) :=
  match teams with
  | [] => Some []
  | t :: rest =>
    match as_result t, all_results rest with
    | Some r, Some rs => Some (r :: rs)
    | _, _ => None
    end
  end.

Definition new_events {W} (st st' : State W) : list Event :=
  drop (length (trace st)) (trace st').

End api_teams.

(** The file system after the first two statements of
    [writeEnvironmentFile]: [/etc/torus] has been made if nothing was there
    and [/etc] is a directory. *)
Module os_steps.

Import os cmd.

Definition after_mkdir (fs : FS) : FS :=
  if exists_ GlobalRoot fs then fs
  else if bool_decide (is_Some (dirs fs !! Dir GlobalRoot))
       then mkFS (<[GlobalRoot := Z.ldiff 448 (umask fs)]> (dirs fs)) (files fs) (umask fs)
       else fs.

(** The two lines of the environment file. *)
Definition environment_lines `{Env} (token secret : string) : string :=
  ("TORUS_TOKEN_ID=" ++ ID_String token ++ LF)
    ++ ("TORUS_TOKEN_SECRET=" ++ Value_String secret ++ LF).

End os_steps.

(** ** The command [machines destroy] (package cmd)

    The configuration, the org lookup, the machines client, the identity
    decoder and the confirmation dialogue are collaborators; a run records
    what it asked of them and what it was answered. *)
Module cmd_destroy.

(** cli.Context, as far as the command reads it: the positional arguments
    and the string flags. *)
Record Context : Type := mkContext { Args : list string; ctx_String : string -> string }.

(** The errors of package errs, and an error handed on as it came. *)
Inductive ExitError : Type :=
| NewUsageExitError (msg : string)
| NewErrorExitError (msg : string) (err : error)
| NewExitError (msg : string)
| Plain (err : error).

(** envelope.Org, apitypes.MachineSegment and its machine envelope, as far
    as the command reads them; the ids are pointers. *)
Record Org : Type := mkOrg { org_ID : option string }.
Record MachineEnvelope : Type := mkMachine { Machine_ID : option string }.
Record MachineSegment : Type := mkSegment { Machine : option MachineEnvelope }.

(** What a run comes to: it returns, or a nil pointer or an index out of
    range stops it. *)
Inductive Outcome : Type :=
| Returns (err : option ExitError)
| Panics.

Class Env (W : Type) : Type := {
  Config : Type;
  LoadConfig : W -> result Config * W;
  getOrg : Config -> string -> W -> result (option Org) * W;
  DecodeFromString : string -> result string;
  Machines_List : Config -> option string -> option string -> option string ->
                  option string -> W -> result (list MachineSegment) * W;
  ConfirmDialogue : Context -> option string -> option string -> string -> bool ->
                    W -> option error * W;
  Machines_Destroy : Config -> string -> W -> option error * W
}.

Inductive Event : Type :=
| EvLoadConfig
| EvGetOrg (name : string)
| EvList (orgID : option string) (name : string)
| EvConfirm (preamble : option string) (answer : option error)
| EvDestroy (machineID : string) (answer : option error)
| EvPrintln (line : string).

Record State (W : Type) : Type := mkState { world : W; trace : list Event }.
Arguments mkState {W}.
Arguments world {W}.
Arguments trace {W}.

Section Destroy.
Context {W : Type} `{Env W}.

Definition call {A} (e : A -> Event) (f : W -> A * W) : Eff (State W) A :=
  fun st => let (a, w') := f (world st) in (a, mkState w' (trace st ++ [e a])).

Definition Println (line : string) : Eff (State W) unit :=
  fun st => (tt, mkState (world st) (trace st ++ [EvPrintln line])).

(** [destroyMachineCmd] from the confirmation on, once [machineID] is
    known. *)
Definition confirmAndDestroy (ctx : Context) (cfg : Config) (machineID : string)
    : Eff (State W) Outcome :=
  let preamble := "You are about to destroy a machine. This cannot be undone." in
  let* abortErr := call (EvConfirm (Some preamble))
                        (ConfirmDialogue ctx None (Some preamble) "" true) in
  match abortErr with
  | Some abortErr => ret (Returns (Some (Plain abortErr)))
  | None =>
    let* err := call (EvDestroy machineID) (Machines_Destroy cfg machineID) in
    match err with
    | Some err => ret (Returns (Some (NewErrorExitError "Failed to destroy machine" err)))
    | None =>
      Println "Machine destroyed." ;;
      ret (Returns None)
    end
  end.

(** [destroyMachineCmd] *)
Definition destroyMachineCmd (ctx : Context) : Eff (State W) Outcome :=
  let args := Args ctx in
  if (1 <? length args)%nat then
    ret (Returns (Some (NewUsageExitError "Too many arguments supplied.")))
  else if (length args <? 1)%nat then
    ret (Returns (Some (NewUsageExitError "Name or ID is required")))
  else if String.eqb (ctx_String ctx "org") "" then
    ret (Returns (Some (NewUsageExitError "Missing flags: --org")))
  else
  let* r := call (fun _ => EvLoadConfig) LoadConfig in
  match r with
  | Err err => ret (Returns (Some (Plain err)))
  | Ok cfg =>
    let* r := call (fun _ => EvGetOrg (ctx_String ctx "org"))
                   (getOrg cfg (ctx_String ctx "org")) in
    match r with
    | Err err => ret (Returns (Some (NewErrorExitError "Machine destroy failed" err)))
    | Ok None => ret (Returns (Some (NewExitError "Org not found.")))
    | Ok (Some org) =>
      match args !! 0%nat with
      | None => ret Panics
      | Some arg0 =>
        match DecodeFromString arg0 with
        | Ok machineID => confirmAndDestroy ctx cfg machineID
        | Err err =>
          let name := arg0 in
          let* l := call (fun _ => EvList (org_ID org) name)
                         (Machines_List cfg (org_ID org) None (Some name) None) in
          match l with
          | Err lErr =>
            ret (Returns (Some (NewErrorExitError "Failed to retrieve machine" err)))
          | Ok machines =>
            if (length machines <? 1)%nat then
              ret (Returns (Some (NewExitError "Machine not found")))
            else
              match machines !! 0%nat with
              | Some (mkSegment (Some (mkMachine (Some machineID)))) =>
                confirmAndDestroy ctx cfg machineID
              | _ => ret Panics
              end
          end
        end
      end
    end
  end.

End Destroy.

Definition new_events {W} (st st' : State W) : list Event :=
  drop (length (trace st)) (trace st').

Definition is_destroy (e : Event) : bool :=
  match e with EvDestroy _ _ => true | _ => false end.

(** The destroy requests among some events. *)
Definition destroys (evs : list Event) : list Event := filter is_destroy evs.

(** The id the first machine of a list carries, when it is there. *)
Definition first_machine_ID (machines : list MachineSegment) : option string :=
  match machines !! 0%nat with
  | Some (mkSegment (Some (mkMachine (Some machineID)))) => Some machineID
  | _ => None
  end.

Definition preamble : option string :=
  Some "You are about to destroy a machine. This cannot be undone.".

(** The three ways the confirmation and what follows it can go for the
    machine [machineID]: the user declines; the user accepts and the request
    fails; the user accepts, the request succeeds and the command says so. *)
Definition confirmed_tail (machineID : string) (out : Outcome) (evs : list Event) : Prop :=
  (exists e, evs = [EvConfirm preamble (Some e)] /\ out = Returns (Some (Plain e))) \/
  (exists e, evs = [EvConfirm preamble None; EvDestroy machineID (Some e)] /\
             out = Returns (Some (NewErrorExitError "Failed to destroy machine" e))) \/
  (evs = [EvConfirm preamble None; EvDestroy machineID None;
          EvPrintln "Machine destroyed."] /\
   out = Returns None).

(** The events before the confirmation: configuration, org lookup and, for a
    name, the listing. *)
Definition is_lookup (e : Event) : bool :=
  match e with EvLoadConfig | EvGetOrg _ | EvList _ _ => true | _ => false end.

End cmd_destroy.

(** ** More concrete collaborators *)

Module samples.

(** A daemon that cannot reach the registry: every request fails with a
    network error, which is not a registry error. *)
Definition unreachable : error := ErrorString "dial unix: connection refused".

#[global] Instance no_registry : routes.Env unit := {
  routes.Tokens_PostLogin _ u := (Err unreachable, u);
  routes.Tokens_PostAuth _ _ u := (Err unreachable, u);
  routes.Tokens_Delete _ u := (Some unreachable, u);
  routes.Users_GetSelf _ u := (Err unreachable, u);
  routes.DeriveLoginHMAC p salt loginToken := Ok (p ++ "|" ++ salt ++ "|" ++ loginToken)%string;
  routes.Decode_login body :=
    if String.eqb body "a@b p" then Ok (routes.mkLogin "a@b" "p")
    else Err (ErrorString "unexpected end of JSON input")
}.

(** Such a daemon with the token [tok] in its session. *)
Definition offline (tok : string) : routes.State unit :=
  routes.mkState tt (session.mkSession "user-alice" "p" tok) ∅ [].

(** A response encoder whose peer is there. *)
#[global] Instance encoder : routes_session.Encoder := {
  routes_session.json_Encode _ := None
}.

(** A teams endpoint that answers every lookup with the team [workers] and
    an envelope of another kind, and accepts every post; ids are drawn from a
    counter. *)
Definition workers : api_teams.Team := api_teams.mkTeam "workers" (Some "org-1") "machine".

#[global] Instance teams_client : api_teams.Client nat := {
  api_teams.ID_String s := s;
  api_teams.NewRequest_error req :=
    if String.eqb (api_teams.req_path req) "/teams" then None
    else Some (ErrorString "bad path");
  api_teams.Do_into req teams n :=
    (match api_teams.req_query req with
     | Some q =>
       if bool_decide (q !! "name" = Some ["workers"])
       then Ok [api_teams.mkUnsigned (Some "team-1") 1 (api_teams.TeamBody workers)]
       else if bool_decide (q !! "name" = Some ["broken"])
       then Ok [api_teams.mkUnsigned (Some "team-1") 1 (api_teams.TeamBody workers);
                api_teams.mkUnsigned (Some "org-1") 1 (api_teams.OtherBody "org")]
       else Ok teams
     | None => Ok teams
     end, S n);
  api_teams.Do_only req n := (None, S n);
  api_teams.identity_Mutable body n := (Ok "team-2", S n)
}.


(** An org [acme] with the machines [web-1] and [web-2] under the name
    [web]; the user accepts as many confirmations as the counter holds.
    Only [0401aaaa] reads as an id; listing [down] times out. *)
#[global] Instance fleet : cmd_destroy.Env nat := {
  cmd_destroy.Config := unit;
  cmd_destroy.LoadConfig n := (Ok tt, n);
  cmd_destroy.getOrg _ name n :=
    (if String.eqb name "acme" then Ok (Some (cmd_destroy.mkOrg (Some "org-1")))
     else Ok None, n);
  cmd_destroy.DecodeFromString s :=
    if String.eqb s "0401aaaa" then Ok s else Err (ErrorString "invalid id");
  cmd_destroy.Machines_List _ _ _ name _ n :=
    (if bool_decide (name = Some "web") then
       Ok [cmd_destroy.mkSegment (Some (cmd_destroy.mkMachine (Some "web-1")));
           cmd_destroy.mkSegment (Some (cmd_destroy.mkMachine (Some "web-2")))]
     else if bool_decide (name = Some "down") then Err (ErrorString "timeout")
     else Ok [], n);
  cmd_destroy.ConfirmDialogue _ _ _ _ _ n :=
    match n with
    | O => (Some (ErrorString "aborted"), O)
    | S n' => (None, n')
    end;
  cmd_destroy.Machines_Destroy _ _ n := (None, n)
}.

(** [torus machines destroy --org acme <arg>], and a terminal where the
    user will accept [n] times. *)
Definition destroy_ctx (arg : string) : cmd_destroy.Context :=
  cmd_destroy.mkContext [arg] (fun f => if String.eqb f "org" then "acme" else "").

Definition terminal (n : nat) : cmd_destroy.State nat := cmd_destroy.mkState n [].

End samples.

(** * Properties *)

(** ** The monad *)

Module Go_facts.

Lemma bind_run {S A B} (c : Eff S A) (k : A -> Eff S B) (s : S) :
  bind c k s = k (c s).1 (c s).2.
Proof. unfold bind. destruct (c s). reflexivity. Qed.



End Go_facts.

(** ** Session routes *)

Module routes_spec.

Import session routes route_events.

Ltac run_route :=
  unfold loginRoute, logoutRoute, PostLogin, PostAuth, GetSelf, Delete, deriveHMAC,
    dbSet, sessionSet, sessionLogout, sessionToken, WriteHeader, Encode,
    encodeResponseErr, emit, onRegistry, exec, eval, bind, ret; simpl.

Lemma eqb_empty_false (s : string) : s <> "" -> String.eqb s "" = false.
Proof. intros Hs. apply String.eqb_neq. exact Hs. Qed.

Section Login.
Context {R : Type} `{Env R}.

(** The successful run of [loginRoute], step by step. *)
Lemma loginRoute_success body creds st salt loginToken hmac authToken self r1 r2 r3 :
  Decode_login body = Ok creds ->
  Email creds <> "" -> Passphrase creds <> "" ->
  Tokens_PostLogin (Email creds) (registry st) = (Ok (salt, loginToken), r1) ->
  DeriveLoginHMAC (Passphrase creds) salt loginToken = Ok hmac ->
  Tokens_PostAuth loginToken hmac r1 = (Ok authToken, r2) ->
  Users_GetSelf authToken r2 = (Ok self, r3) ->
  loginRoute body st =
    (tt, mkState r3
           (Set_ (ID self) (Passphrase creds) authToken (sess st))
           (<[ID self := self]> (db st))
           (trace st ++
              [ EvPostLogin (Email creds);
                EvDeriveLoginHMAC (Passphrase creds) salt loginToken;
                EvPostAuth loginToken hmac;
                EvGetSelf authToken;
                EvDbSet self;
                EvSessionSet (ID self) (Passphrase creds) authToken;
                EvWriteHeader StatusNoContent ])).
Proof.
  intros Hdec He Hp Hlogin Hhmac Hauth Hself.
  run_route. rewrite Hdec.
  rewrite (eqb_empty_false _ He), (eqb_empty_false _ Hp). simpl.
  rewrite Hlogin. simpl. rewrite Hhmac. simpl.
  rewrite Hauth. simpl. rewrite Hself. simpl.
  repeat rewrite <- app_assoc. reflexivity.
Qed.

(** A failing step ends the run of [loginRoute] with the error response;
    registry calls apart, nothing is changed. *)
Lemma loginRoute_failure body st err :
  step_fails body (registry st) err ->
  exists r new,
    loginRoute body st = (tt, mkState r (sess st) (db st) (trace st ++ new)) /\
    response new = [EvEncodeResponseErr err] /\
    existsb is_session_set new = false /\
    existsb is_db_set new = false.
Proof.
  intros [Hdec
         | creds r1 Hdec He Hp Hlogin
         | creds salt lt r1 Hdec He Hp Hlogin Hhmac
         | creds salt lt hmac r1 r2 Hdec He Hp Hlogin Hhmac Hauth
         | creds salt lt hmac auth r1 r2 r3 Hdec He Hp Hlogin Hhmac Hauth Hself];
    run_route; rewrite Hdec;
    try rewrite (eqb_empty_false _ He), (eqb_empty_false _ Hp); simpl.
  - exists (registry st), [EvEncodeResponseErr err]. destruct st; auto.
  - rewrite Hlogin. simpl.
    exists r1, [EvPostLogin (Email creds); EvEncodeResponseErr err].
    rewrite <- app_assoc. auto.
  - rewrite Hlogin. simpl. rewrite Hhmac. simpl.
    exists r1, [EvPostLogin (Email creds);
                EvDeriveLoginHMAC (Passphrase creds) salt lt;
                EvEncodeResponseErr err].
    repeat rewrite <- app_assoc. auto.
  - rewrite Hlogin. simpl. rewrite Hhmac. simpl. rewrite Hauth. simpl.
    exists r2, [EvPostLogin (Email creds);
                EvDeriveLoginHMAC (Passphrase creds) salt lt;
                EvPostAuth lt hmac;
                EvEncodeResponseErr err].
    repeat rewrite <- app_assoc. auto.
  - rewrite Hlogin. simpl. rewrite Hhmac. simpl. rewrite Hauth. simpl.
    rewrite Hself. simpl.
    exists r3, [EvPostLogin (Email creds);
                EvDeriveLoginHMAC (Passphrase creds) salt lt;
                EvPostAuth lt hmac;
                EvGetSelf auth;
                EvEncodeResponseErr err].
    repeat rewrite <- app_assoc. auto.
Qed.

End Login.

End routes_spec.

Module routes_claims.

Import session routes route_events routes_spec.

Lemma new_events_app {R} (st : State R) r s d new :
  new_events st (mkState r s d (trace st ++ new)) = new.
Proof. unfold new_events. simpl. apply drop_app_length. Qed.

(** C1, as amended.  For every login request whose email and passphrase are
    both non-empty and whose steps all succeed, the handler performs, in this
    order: tokens.post_login with the email; the derivation of the login
    HMAC from passphrase, salt and login token; tokens.post_auth with login
    token and HMAC; users.get_self with the auth token; the storing of self
    in the local DB; the populating of the session with self's id, the
    passphrase and the auth token; the response 204 No Content.  The DB then
    holds self, and a session that was empty holds the three values. *)
Theorem loginRoute_steps_in_order {R} `{Env R}
    body creds (st : State R) salt loginToken hmac authToken self r1 r2 r3 :
  Decode_login body = Ok creds ->
  Email creds <> "" -> Passphrase creds <> "" ->
  Tokens_PostLogin (Email creds) (registry st) = (Ok (salt, loginToken), r1) ->
  DeriveLoginHMAC (Passphrase creds) salt loginToken = Ok hmac ->
  Tokens_PostAuth loginToken hmac r1 = (Ok authToken, r2) ->
  Users_GetSelf authToken r2 = (Ok self, r3) ->
  let st' := exec (loginRoute body) st in
  new_events st st' =
    [ EvPostLogin (Email creds);
      EvDeriveLoginHMAC (Passphrase creds) salt loginToken;
      EvPostAuth loginToken hmac;
      EvGetSelf authToken;
      EvDbSet self;
      EvSessionSet (ID self) (Passphrase creds) authToken;
      EvWriteHeader StatusNoContent ] /\
  db st' !! ID self = Some self /\
  (is_empty (sess st) = true ->
   sess st' = mkSession (ID self) (Passphrase creds) authToken).
Proof.
  intros Hdec He Hp Hlogin Hhmac Hauth Hself st'.
  unfold st', exec.
  rewrite (loginRoute_success _ _ _ _ _ _ _ _ _ _ _ Hdec He Hp Hlogin Hhmac Hauth Hself).
  simpl. split; [apply new_events_app |]. split.
  - apply lookup_insert_eq.
  - intros Hempty. unfold Set_. rewrite Hempty. reflexivity.
Qed.

Lemma loginRoute_steps_in_order_witness :
  let st' := exec (loginRoute "a@b p") demo.fresh in
  new_events demo.fresh st' =
    [ EvPostLogin "a@b";
      EvDeriveLoginHMAC "p" "salt" "login-token";
      EvPostAuth "login-token" "p|salt|login-token";
      EvGetSelf "auth-token";
      EvDbSet demo.alice;
      EvSessionSet "user-alice" "p" "auth-token";
      EvWriteHeader StatusNoContent ] /\
  db st' !! "user-alice" = Some demo.alice /\
  (is_empty (sess demo.fresh) = true ->
   sess st' = mkSession "user-alice" "p" "auth-token").
Proof.
  apply (loginRoute_steps_in_order (R := nat) "a@b p" (mkLogin "a@b" "p") demo.fresh
           "salt" "login-token" "p|salt|login-token" "auth-token" demo.alice
           1%nat 2%nat 3%nat);
    first [ reflexivity | intros E; discriminate E ].
Defined.

(** C1, as the specification states it, fails: in a login on a fresh daemon
    in which every step succeeds and 204 is answered, self is stored in the
    DB before the session is populated, not after. *)
Lemma loginRoute_specified_order_fails :
  let st' := exec (loginRoute "a@b p") demo.fresh in
  response (trace st') = [EvWriteHeader StatusNoContent] /\
  Trace.beforeb is_db_set is_session_set (trace st') = true /\
  ~ specified_login_steps (trace st').
Proof.
  split; [reflexivity |]. split; [reflexivity |].
  intros (email & passphrase & salt & loginToken & hmac & authToken & self & Heq).
  vm_compute in Heq. discriminate Heq.
Qed.

(** C2.  For every login request, if a step of the login sequence fails
    (decoding the request, tokens.post_login, the HMAC derivation,
    tokens.post_auth or users.get_self), the handler's response is the error
    response for that error and the session is not touched: no field of it is
    set, so that the session of a daemon that was not logged in is left
    empty, with identity, passphrase and auth token all unset. *)
Theorem loginRoute_failure_leaves_session_empty {R} `{Env R}
    body (st : State R) err :
  step_fails body (registry st) err ->
  let st' := exec (loginRoute body) st in
  response (new_events st st') = [EvEncodeResponseErr err] /\
  existsb is_session_set (new_events st st') = false /\
  sess st' = sess st /\
  (is_empty (sess st) = true ->
   id (sess st') = "" /\ passphrase (sess st') = "" /\ token (sess st') = "").
Proof.
  intros Hfail st'.
  destruct (loginRoute_failure body st err Hfail) as (r & new & Hrun & Hresp & Hset & _).
  unfold st', exec. rewrite Hrun. simpl. rewrite new_events_app.
  split; [exact Hresp |]. split; [exact Hset |]. split; [reflexivity |].
  intros Hempty. unfold is_empty in Hempty.
  apply andb_prop in Hempty as [Hempty Ht].
  apply andb_prop in Hempty as [Hi Hp].
  repeat split; apply String.eqb_eq; assumption.
Qed.

Lemma loginRoute_failure_leaves_session_empty_witness :
  let st' := exec (loginRoute "a@b q") demo.fresh in
  response (new_events demo.fresh st') =
    [EvEncodeResponseErr (RegistryError 401 "bad hmac")] /\
  existsb is_session_set (new_events demo.fresh st') = false /\
  sess st' = sess demo.fresh /\
  id (sess st') = "" /\ passphrase (sess st') = "" /\ token (sess st') = "".
Proof.
  destruct (loginRoute_failure_leaves_session_empty (R := nat) "a@b q" demo.fresh
              (RegistryError 401 "bad hmac")) as (Hresp & Hset & Hsess & Hempty).
  - apply (fails_post_auth (R := nat) "a@b q" _ _ (mkLogin "a@b" "q")
             "salt" "login-token" "q|salt|login-token" 1%nat 2%nat);
      first [ reflexivity | intros E; discriminate E ].
  - split; [exact Hresp |]. split; [exact Hset |]. split; [exact Hsess |].
    apply Hempty. reflexivity.
Defined.

Example loginRoute_without_passphrase :
  trace (exec (loginRoute "a@b") demo.fresh) =
    [ EvWriteHeader StatusBadRequest;
      EvEncode (mkErrorMsg "bad_request" "email and passphrase required") ].
Proof. reflexivity. Qed.

Example loginRoute_undecodable :
  trace (exec (loginRoute "{") demo.fresh) =
    [EvEncodeResponseErr (ErrorString "unexpected end of JSON input")].
Proof. reflexivity. Qed.

Example logoutRoute_without_session :
  trace (exec logoutRoute demo.fresh) = [EvWriteHeader StatusNotFound].
Proof. reflexivity. Qed.

(** C3.  For every logout request on a daemon whose session holds a token:
    if tokens.delete returns a registry error with status code >= 500, the
    session is left as it was and the error response is sent; if it returns
    a registry error with status code in [400, 500), the session is cleared
    and 204 is answered; if it succeeds, the session is cleared and 204 is
    answered. *)
Theorem logoutRoute_by_delete_outcome {R} `{Env R} (st : State R) res r1 :
  Token (sess st) <> "" ->
  Tokens_Delete (Token (sess st)) (registry st) = (res, r1) ->
  let st' := exec logoutRoute st in
  let resp := response (new_events st st') in
  (forall code msg, res = Some (RegistryError code msg) -> 500 <= code ->
     sess st' = sess st /\ resp = [EvEncodeResponseErr (RegistryError code msg)]) /\
  (forall code msg, res = Some (RegistryError code msg) -> 400 <= code < 500 ->
     sess st' = NewSession /\ resp = [EvWriteHeader StatusNoContent]) /\
  (res = None ->
     sess st' = NewSession /\ resp = [EvWriteHeader StatusNoContent]).
Proof.
  intros Htok Hdel st' resp. subst resp st'.
  unfold new_events. run_route.
  rewrite (eqb_empty_false _ Htok). rewrite Hdel.
  split; [| split].
  - intros code msg -> Hcode.
    replace (500 <=? code)%Z with true by (symmetry; apply Z.leb_le; exact Hcode).
    simpl. rewrite <- app_assoc, drop_app_length. split; reflexivity.
  - intros code msg -> [Hlo Hhi].
    replace (500 <=? code)%Z with false by (symmetry; apply Z.leb_gt; exact Hhi).
    replace (400 <=? code)%Z with true by (symmetry; apply Z.leb_le; exact Hlo).
    simpl. rewrite <- !app_assoc, drop_app_length. split; reflexivity.
  - intros ->. simpl. rewrite <- !app_assoc, drop_app_length. split; reflexivity.
Qed.

Lemma logoutRoute_by_delete_outcome_witness :
  (let st' := exec logoutRoute (demo.logged_in "tok-1") in
   sess st' = sess (demo.logged_in "tok-1") /\
   response (new_events (demo.logged_in "tok-1") st') =
     [EvEncodeResponseErr (RegistryError 503 "unavailable")]) /\
  (let st' := exec logoutRoute (demo.logged_in "stale") in
   sess st' = NewSession /\
   response (new_events (demo.logged_in "stale") st') = [EvWriteHeader StatusNoContent]) /\
  (let st' := exec logoutRoute (demo.logged_in "auth-token") in
   sess st' = NewSession /\
   response (new_events (demo.logged_in "auth-token") st') =
     [EvWriteHeader StatusNoContent]).
Proof.
  split; [| split].
  - refine (proj1 (logoutRoute_by_delete_outcome (R := nat) (demo.logged_in "tok-1")
                     (Some (RegistryError 503 "unavailable")) 1%nat _ _)
                  503 "unavailable" _ _);
      first [ reflexivity | lia | intros E; discriminate E ].
  - refine (proj1 (proj2 (logoutRoute_by_delete_outcome (R := nat) (demo.logged_in "stale")
                     (Some (RegistryError 404 "no such token")) 1%nat _ _))
                  404 "no such token" _ _);
      first [ reflexivity | lia | intros E; discriminate E ].
  - refine (proj2 (proj2 (logoutRoute_by_delete_outcome (R := nat)
                     (demo.logged_in "auth-token") None 1%nat _ _)) _);
      first [ reflexivity | intros E; discriminate E ].
Defined.

End routes_claims.

(** ** Daemon lifecycle *)

Module daemon_spec.

Import daemon daemon_events.

Ltac run_daemon :=
  unfold Run, Shutdown, call, LookupEnv, getHasShutdown, setHasShutdown,
    exec, eval, bind, ret; simpl.

(** Bring a trace [((t ++ [a]) ++ [b]) ++ ...] into the form [t ++ [a; b; ...]]
    and drop [t]. *)
Ltac since_start :=
  unfold new_events; simpl;
  repeat rewrite <- app_assoc; simpl;
  rewrite ?drop_app_length, ?drop_all.

Lemma Login_eqb_refl l : Login_eqb l l = true.
Proof. destruct l; simpl; rewrite !String.eqb_refl; reflexivity. Qed.

Section Shutdown.
Context {W : Type} `{Env W}.

(** Once the flag is set, [Shutdown] does nothing. *)
Lemma Shutdown_after_shutdown (d : Daemon W) :
  hasShutdown d = true -> Shutdown d = (None, d).
Proof. intros Hd. run_daemon. rewrite Hd. reflexivity. Qed.

(** Every call of [Shutdown] leaves the flag set. *)
Lemma Shutdown_sets_flag (d : Daemon W) : hasShutdown (exec Shutdown d) = true.
Proof.
  run_daemon. destruct (hasShutdown d) eqn:Hd; simpl; [exact Hd |].
  destruct (lock_Unlock (world d)) as [[e|] w1]; simpl; [reflexivity |].
  destruct (proxy_Close w1) as [[e|] w2]; simpl; [reflexivity |].
  destruct (db_Close w2) as [[e|] w3]; simpl; [reflexivity |].
  destruct (updates_Stop w3) as [[e|] w4]; reflexivity.
Qed.

End Shutdown.

End daemon_spec.

Module daemon_claims.

Import daemon daemon_events daemon_spec.

(** C4, as amended.  On every first shutdown of the daemon, the shutdown
    performs, in this order: release the PID lockfile, close the proxy
    listener, close the DB, stop the updates worker, each step before the
    next.  A step that fails ends the shutdown with its error and the steps
    after it are not taken; when no step fails all four are taken and nil is
    returned. *)
Theorem Shutdown_first_steps_in_order {W} `{Env W} (d : Daemon W) :
  hasShutdown d = false ->
  let res := eval Shutdown d in
  let new := new_events d (exec Shutdown d) in
  (forall e w1,
      lock_Unlock (world d) = (Some e, w1) ->
      res = Some (Errorf "Could not unlock: %s" [] e) /\
      new = take 1 shutdown_steps) /\
  (forall e w1 w2,
      lock_Unlock (world d) = (None, w1) ->
      proxy_Close w1 = (Some e, w2) ->
      res = Some (Errorf "Could not stop http proxy: %s" [] e) /\
      new = take 2 shutdown_steps) /\
  (forall e w1 w2 w3,
      lock_Unlock (world d) = (None, w1) ->
      proxy_Close w1 = (None, w2) ->
      db_Close w2 = (Some e, w3) ->
      res = Some (Errorf "Could not close db: %s" [] e) /\
      new = take 3 shutdown_steps) /\
  (forall e w1 w2 w3 w4,
      lock_Unlock (world d) = (None, w1) ->
      proxy_Close w1 = (None, w2) ->
      db_Close w2 = (None, w3) ->
      updates_Stop w3 = (e, w4) ->
      res = match e with
            | Some e => Some (Errorf "Could not stop update checker: %s" [] e)
            | None => None
            end /\
      new = shutdown_steps /\
      world (exec Shutdown d) = w4).
Proof.
  intros Hd res new. subst res new. run_daemon. rewrite Hd. simpl.
  repeat split.
  all: intros;
    repeat match goal with
           | Hcall : ?f ?w = (_, _) |- context [?f ?w] => rewrite Hcall; simpl
           end;
    try match goal with
        | |- context [match ?e with Some _ => _ | None => _ end] => destruct e; simpl
        end;
    since_start; reflexivity.
Qed.

Lemma Shutdown_first_steps_in_order_witness :
  let d := demo.started (demo.mkHost ∅ []) in
  let d_db := demo.started (demo.mkHost ∅ ["db"]) in
  (eval Shutdown d = None /\
   new_events d (exec Shutdown d) = [EvLockUnlock; EvProxyClose; EvDbClose; EvUpdatesStop]) /\
  (eval Shutdown d_db =
     Some (Errorf "Could not close db: %s" [] (ErrorString "db is out of order")) /\
   new_events d_db (exec Shutdown d_db) = [EvLockUnlock; EvProxyClose; EvDbClose]).
Proof.
  intros d d_db. split.
  - destruct (Shutdown_first_steps_in_order d eq_refl) as (_ & _ & _ & Hall).
    destruct (Hall None (demo.mkHost ∅ []) (demo.mkHost ∅ []) (demo.mkHost ∅ [])
                   (demo.mkHost ∅ []) eq_refl eq_refl eq_refl eq_refl) as (Hres & Hnew & _).
    split; [exact Hres | exact Hnew].
  - destruct (Shutdown_first_steps_in_order d_db eq_refl) as (_ & _ & Hdb & _).
    apply (Hdb (ErrorString "db is out of order") (demo.mkHost ∅ ["db"])
               (demo.mkHost ∅ ["db"]) (demo.mkHost ∅ ["db"])); reflexivity.
Defined.

(** C4, as the specification states it, fails: on a first shutdown in which
    every step succeeds, the lockfile is released first and the updates
    worker is stopped last, the reverse of the stated order. *)
Lemma Shutdown_specified_order_fails :
  let d := demo.started (demo.mkHost ∅ []) in
  eval Shutdown d = None /\
  new_events d (exec Shutdown d) <> specified_shutdown_steps /\
  Trace.beforeb is_updates_stop is_unlock (new_events d (exec Shutdown d)) = false /\
  Trace.beforeb is_unlock is_updates_stop (new_events d (exec Shutdown d)) = true.
Proof.
  repeat split; try reflexivity.
  intros E. vm_compute in E. discriminate E.
Qed.

(** C10.  Shutdown is idempotent: on a daemon on which Shutdown has been
    called, every later call returns nil and changes nothing; the lockfile,
    the proxy, the DB and the updates engine are not touched again. *)
Theorem Shutdown_idempotent {W} `{Env W} (d : Daemon W) (n : nat) :
  let d1 := exec Shutdown d in
  Shutdown (Nat.iter n (exec Shutdown) d1) = (None, d1).
Proof.
  intros d1.
  assert (Hiter : Nat.iter n (exec Shutdown) d1 = d1).
  { induction n as [| n IH]; simpl; [reflexivity |].
    rewrite IH. unfold exec at 1.
    rewrite (Shutdown_after_shutdown d1 (Shutdown_sets_flag d)). reflexivity. }
  rewrite Hiter. apply Shutdown_after_shutdown, Shutdown_sets_flag.
Qed.



End daemon_claims.


(** ** Machine tokens *)

Module logic_claims.

Import logic logic_events.

Ltac run_logic :=
  unfold CreateToken, EncodeToken, postBatch, postMember, Notify, sessionID,
    onWorld, emit, exec, eval, bind, ret; simpl.

(** C6.  For every machine envelope and secret for which CreateToken
    succeeds, the body of the returned machine token has MachineID equal to
    the machine's id and OrgID equal to the machine's org, embeds the login
    public key derived from the secret and a freshly generated salt (salt,
    value, algorithm EdDSA), embeds the master key object created under the
    secret, and is in the active state. *)
Theorem CreateToken_token_body {W} `{Env W} machine secret (st st' : State W) seg :
  CreateToken machine secret st = (Ok seg, st') ->
  let body := tok_Body (Token seg) in
  mt_MachineID body = mach_ID machine /\
  mt_OrgID body = m_OrgID (mach_Body machine) /\
  (exists salt keypair masterKey w1 w2 w3,
      crypto_GenerateSalt (world st) = (Ok salt, w1) /\
      crypto_DeriveLoginKeypair secret salt w1 = (Ok keypair, w2) /\
      crypto_CreateMasterKeyObject secret None w2 = (Ok masterKey, w3) /\
      mt_PublicKey body = mkLoginPublicKey (Salt keypair) (PublicKey keypair) EdDSA /\
      mt_Master body = masterKey) /\
  mt_State body = MachineTokenActiveState.
Proof.
  run_logic.
  destruct (crypto_GenerateSalt (world st)) as [[salt|e] w1] eqn:Hsalt; simpl;
    [| discriminate].
  destruct (crypto_DeriveLoginKeypair secret salt w1) as [[keypair|e] w2] eqn:Hkp; simpl;
    [| discriminate].
  destruct (crypto_CreateMasterKeyObject secret None w2) as [[masterKey|e] w3] eqn:Hmk;
    simpl; [| discriminate].
  destruct (time_Now_UTC w3) as [created w4]; simpl.
  destruct (identity_NewMutable _ w4) as [[tokenID|e] w5]; simpl; [| discriminate].
  destruct (Engine_GenerateKeyPairs _ w5) as [[kp|e] w6]; simpl; [| discriminate].
  destruct (generateKeypairs _ _ _ kp _) as [[keypairs|e] st6]; [| discriminate].
  intros Heq. injection Heq as <- <-. simpl.
  split; [reflexivity |]. split; [reflexivity |]. split; [| reflexivity].
  exists salt, keypair, masterKey, w1, w2, w3. repeat split; assumption.
Qed.

Lemma CreateToken_token_body_witness :
  let seg_st := CreateToken demo.worker "c2VjcmV0" demo.engine_start in
  exists seg st',
    seg_st = (Ok seg, st') /\
    mt_MachineID (tok_Body (Token seg)) = "machine-1" /\
    mt_OrgID (tok_Body (Token seg)) = "org-1" /\
    mt_PublicKey (tok_Body (Token seg)) =
      mkLoginPublicKey "c2FsdA" "pub:c2VjcmV0:c2FsdA" EdDSA /\
    mt_Master (tok_Body (Token seg)) = mkMasterKey "triplesec-v3" "sealed:c2VjcmV0" /\
    mt_State (tok_Body (Token seg)) = MachineTokenActiveState.
Proof.
  intros seg_st.
  destruct seg_st as [[seg|e] st'] eqn:Hrun; [| vm_compute in Hrun; discriminate Hrun].
  exists seg, st'. split; [reflexivity |].
  pose proof (CreateToken_token_body demo.worker "c2VjcmV0" demo.engine_start st' seg Hrun)
    as (Hid & Horg & (salt & keypair & masterKey & w1 & w2 & w3 &
                      Hsalt & Hkp & Hmk & Hpk & Hmaster) & Hstate).
  vm_compute in Hsalt. injection Hsalt as <- <-.
  vm_compute in Hkp. injection Hkp as <- <-.
  vm_compute in Hmk. injection Hmk as <- <-.
  repeat split; assumption.
Defined.

Lemma posts_app tr1 tr2 : posts (tr1 ++ tr2) = posts tr1 ++ posts tr2.
Proof. unfold posts. apply omap_app. Qed.

Lemma posts_event_of ps : posts (map event_of ps) = ps.
Proof.
  induction ps as [| [[members | member] err] ps IH]; simpl; [reflexivity | |];
    unfold posts in *; simpl; rewrite IH; reflexivity.
Qed.

Lemma ended_cons res p posted :
  ended res posted -> ended res ((p, None) :: posted).
Proof.
  destruct res as [err |]; simpl.
  - intros (before & q & -> & Hok). exists ((p, None) :: before), q.
    split; [reflexivity |]. constructor; [reflexivity | exact Hok].
  - intros Hok. constructor; [reflexivity | exact Hok].
Qed.

Section Posts.
Context {W : Type} `{Env W}.

(** The loop over the V2 members posts them one by one, in order, and stops
    at the first error. *)
Lemma postMembers_posts (v2 : list KeyringMember) (st : State W) :
  exists posted,
    trace (exec (postMembers v2) st) = trace st ++ map event_of posted /\
    map fst posted `prefix_of` map Member v2 /\
    (eval (postMembers v2) st = None -> map fst posted = map Member v2) /\
    ended (eval (postMembers v2) st) posted.
Proof.
  revert st. induction v2 as [| member rest IH]; intros st.
  - exists []. simpl. rewrite app_nil_r. repeat split; try reflexivity. constructor.
  - unfold exec, eval. simpl. run_logic.
    destruct (Keyring_Members_Post member (world st)) as [[err |] w1]; simpl.
    + exists [(Member member, Some err)]. simpl. repeat split.
      * apply prefix_cons, prefix_nil.
      * discriminate.
      * exists [], (Member member). split; [reflexivity | constructor].
    + destruct (IH (mkState w1 (trace st ++ [EvPostMember member None])))
        as (posted & Htrace & Hprefix & Hall & Hend).
      exists ((Member member, None) :: posted).
      unfold exec, eval in *. simpl in *.
      rewrite Htrace, <- app_assoc. repeat split.
      * apply prefix_cons, Hprefix.
      * intros Hnone. rewrite (Hall Hnone). reflexivity.
      * apply ended_cons, Hend.
Qed.

End Posts.

(** C7.  For every machine token, EncodeToken posts the derived V1
    keyring-member records as one batch (and makes no batch request when
    there are none), then posts each V2 record on its own to the per-keyring
    member endpoint, in order; the first post that returns an error is the
    last one made, and its error is returned.  When the derivation of the
    memberships fails, its error is returned and nothing is posted. *)
Theorem EncodeToken_posts_members {W} `{Env W} token (st : State W) :
  let res := eval (EncodeToken token) st in
  let posted := posts (new_events st (exec (EncodeToken token) st)) in
  (forall err w1,
      createKeyringMemberships (mt_OrgID (tok_Body token)) (tok_ID token) (world st)
        = (Err err, w1) ->
      res = Some err /\ posted = []) /\
  (forall v1 v2 w1,
      createKeyringMemberships (mt_OrgID (tok_Body token)) (tok_ID token) (world st)
        = (Ok (v1, v2), w1) ->
      map fst posted `prefix_of` expected_posts v1 v2 /\
      (res = None -> map fst posted = expected_posts v1 v2) /\
      ended res posted).
Proof.
  intros res posted. subst res posted. unfold new_events, exec, eval. run_logic.
  split.
  - intros err w1 ->. simpl. split; [reflexivity |].
    rewrite drop_app_length. reflexivity.
  - intros v1 v2 w1 ->. simpl.
    destruct v1 as [| m1 v1]; simpl.
    + match goal with
      | |- context [postMembers v2 ?s] =>
        destruct (postMembers_posts v2 s) as (posted & Htrace & Hprefix & Hall & Hend);
          unfold exec, eval in Htrace, Hall, Hend;
          destruct (postMembers v2 s) as [res st2]
      end.
      simpl in *.
      rewrite Htrace, <- !app_assoc, drop_app_length. simpl.
      rewrite posts_event_of. repeat split; assumption.
    + destruct (KeyringMember_Post (m1 :: v1) w1) as [[err |] w2]; simpl.
      * rewrite <- !app_assoc, drop_app_length. simpl. repeat split.
        -- apply prefix_cons, prefix_nil.
        -- discriminate.
        -- exists [], (Batch (m1 :: v1)). split; [reflexivity | constructor].
      * match goal with
        | |- context [postMembers v2 ?s] =>
          destruct (postMembers_posts v2 s) as (posted & Htrace & Hprefix & Hall & Hend);
            unfold exec, eval in Htrace, Hall, Hend;
            destruct (postMembers v2 s) as [res st2]
        end.
        simpl in *.
        rewrite Htrace, <- !app_assoc, drop_app_length. simpl.
        change (posts (EvNotify "Creating keyring memberships for token"
                         :: EvNotify "Uploading keyring memberships"
                         :: EvPostBatch (m1 :: v1) None :: map event_of posted))
          with ((Batch (m1 :: v1), None) :: posts (map event_of posted)).
        rewrite posts_event_of. simpl. repeat split.
        -- apply prefix_cons, Hprefix.
        -- intros Hnone. rewrite (Hall Hnone). reflexivity.
        -- apply ended_cons, Hend.
Qed.

Lemma EncodeToken_posts_members_witness :
  let token := demo.token_of "org-1" in
  let res := eval (EncodeToken token) demo.engine_start in
  let posted := posts (new_events demo.engine_start (exec (EncodeToken token) demo.engine_start)) in
  posted = [ (Batch ["m1"; "m2"], None);
             (Member "k1", None);
             (Member "k2", Some (RegistryError 500 "refused")) ] /\
  res = Some (RegistryError 500 "refused") /\
  map fst posted `prefix_of` expected_posts ["m1"; "m2"] ["k1"; "k2"; "k3"] /\
  ended res posted.
Proof.
  intros token res posted.
  destruct (EncodeToken_posts_members token demo.engine_start) as [_ Hderived].
  destruct (Hderived ["m1"; "m2"] ["k1"; "k2"; "k3"] 1%nat eq_refl) as (Hprefix & _ & Hend).
  split; [reflexivity |]. split; [reflexivity |]. split; [exact Hprefix | exact Hend].
Defined.

Example EncodeToken_without_V1_members :
  let token := demo.token_of "org-2" in
  eval (EncodeToken token) demo.engine_start = None /\
  posts (new_events demo.engine_start (exec (EncodeToken token) demo.engine_start))
    = [(Member "k1", None)].
Proof. split; reflexivity. Qed.

Example EncodeToken_unknown_org :
  let token := demo.token_of "org-9" in
  eval (EncodeToken token) demo.engine_start = Some (RegistryError 404 "no such org") /\
  posts (new_events demo.engine_start (exec (EncodeToken token) demo.engine_start)) = [].
Proof. split; reflexivity. Qed.

End logic_claims.


(** ** Machine bootstrap *)

Module cmd_claims.

Import cmd Go_facts.

Example Dir_GlobalRoot : os.Dir GlobalRoot = "/etc".
Proof. reflexivity. Qed.

Example Dir_environment_file :
  os.Dir (os.Join GlobalRoot EnvironmentFile) = "/etc/torus".
Proof. reflexivity. Qed.

Section Bootstrap.
Context `{Env}.



End Bootstrap.



Example bootstrap_on_fresh_disk :
  let fs' := exec (bootstrapCmd "aws" "https://gatekeeper.test" "m" "o" "r" "") demo.disk in
  os.dirs fs' !! "/etc/torus" = Some 448 /\
  os.files fs' !! "/etc/torus/token.environment" =
    Some (os.mkFile
            (("TORUS_TOKEN_ID=" ++ "token-1" ++ LF)
               ++ ("TORUS_TOKEN_SECRET=" ++ "c2VjcmV0" ++ LF))
            384).
Proof. split; vm_compute; reflexivity. Qed.

Example bootstrap_without_etc :
  eval (bootstrapCmd "aws" "https://gatekeeper.test" "m" "o" "r" "") demo.bare_disk
  = Some (Errorf "failed to write environment file[%s]: %s"
                 ["/etc/torus/token.environment"] os.ErrNotExist).
Proof. vm_compute. reflexivity. Qed.

End cmd_claims.


(** ** Credentials client *)

Module api_claims.

Import api credentials_route credentials_props Go_facts.

Example Get_decrypts :
  eval (Get "/o/p/dev/svc") demo.member_daemon =
  Ok [mkCredentialEnvelope "cred-1" 2
        (V2 (mkCredentialV2
               (mkBaseCredential "DB_URL" "/o/p/dev/svc/*/*" (Some "postgres://x")) None))].
Proof. vm_compute. reflexivity. Qed.

Example Search_does_not_decrypt :
  eval (Search "/o/p/dev/svc/**" None) demo.member_daemon =
  Ok [mkCredentialEnvelope "cred-1" 2
        (V2 (mkCredentialV2 (mkBaseCredential "DB_URL" "/o/p/dev/svc/*/*" None) None))].
Proof. vm_compute. reflexivity. Qed.

Section Client.
Context `{Codec} `{Crypto}.

(** The loop of [createEnvelopesFromResp] appends one decoded envelope per
    response. *)
Lemma createEnvelopes_decoded resp : forall results envs,
  createEnvelopes resp results = Ok envs ->
  exists new, envs = results ++ new /\ Forall2 decoded new resp.
Proof.
  induction resp as [| c rest IH]; intros results envs; simpl.
  - intros [= <-]. exists []. rewrite app_nil_r. split; [reflexivity | constructor].
  - destruct (resp_Version c =? 1)%Z eqn:Hv1.
    + destruct (Unmarshal_BaseCredential (resp_Body c)) as [b | e] eqn:Hb; [| discriminate].
      intros Hrest. apply IH in Hrest as (new & -> & Hnew).
      eexists (_ :: new). rewrite <- app_assoc. split; [reflexivity |].
      constructor; [| exact Hnew].
      repeat split. left. split; [apply Z.eqb_eq, Hv1 |]. exists b. split; [exact Hb | reflexivity].
    + destruct (resp_Version c =? 2)%Z eqn:Hv2; [| discriminate].
      destruct (Unmarshal_CredentialV2 (resp_Body c)) as [b | e] eqn:Hb; [| discriminate].
      intros Hrest. apply IH in Hrest as (new & -> & Hnew).
      eexists (_ :: new). rewrite <- app_assoc. split; [reflexivity |].
      constructor; [| exact Hnew].
      repeat split. right. split; [apply Z.eqb_eq, Hv2 |]. exists b. split; [exact Hb | reflexivity].
Qed.

Lemma createEnvelopesFromResp_decoded resp envs :
  createEnvelopesFromResp resp = Ok envs -> Forall2 decoded envs resp.
Proof.
  intros Hrun. apply createEnvelopes_decoded in Hrun as (new & -> & Hnew). exact Hnew.
Qed.




End Client.




End api_claims.


(** ** More on the session routes *)

Module routes_more.

Import session routes route_events routes_session routes_spec.

Lemma new_events_of {R} (st : State R) r s d new :
  new_events st (mkState r s d (trace st ++ new)) = new.
Proof. unfold new_events. simpl. apply drop_app_length. Qed.

(** X1.  A login request that decodes but lacks the email or the passphrase
    is answered 400 with the bad-request body; the registry is not
    contacted, and registry, session and DB are left as they were. *)
Theorem loginRoute_missing_credentials {R} `{Env R} body creds (st : State R) :
  Decode_login body = Ok creds ->
  Email creds = "" \/ Passphrase creds = "" ->
  loginRoute body st =
    (tt, mkState (registry st) (sess st) (db st)
           (trace st ++
              [ EvWriteHeader StatusBadRequest;
                EvEncode (mkErrorMsg badRequestError "email and passphrase required") ])).
Proof.
  intros Hdec Hmissing. run_route. rewrite Hdec.
  assert (Hcond : String.eqb (Email creds) "" || String.eqb (Passphrase creds) "" = true).
  { destruct Hmissing as [-> | ->]; [reflexivity |]. apply orb_true_r. }
  rewrite Hcond. simpl. rewrite <- app_assoc. reflexivity.
Qed.

Lemma loginRoute_missing_credentials_witness :
  loginRoute "a@b" demo.fresh =
    (tt, mkState 0%nat NewSession ∅
           [ EvWriteHeader StatusBadRequest;
             EvEncode (mkErrorMsg badRequestError "email and passphrase required") ]).
Proof.
  apply (loginRoute_missing_credentials (R := nat) "a@b" (mkLogin "a@b" "") demo.fresh).
  - reflexivity.
  - right. reflexivity.
Defined.

(** X2.  Every run of the login handler writes a response.  The session is
    set exactly in the runs answered 204 No Content; in every other run the
    session and the DB are left as they were. *)
Theorem loginRoute_sets_session_iff_204 {R} `{Env R} body (st : State R) :
  let st' := exec (loginRoute body) st in
  let new := new_events st st' in
  response new <> [] /\
  (existsb is_session_set new = true <-> response new = [EvWriteHeader StatusNoContent]) /\
  (existsb is_session_set new = false -> sess st' = sess st /\ db st' = db st).
Proof.
  intros st' new. subst st' new. unfold new_events. run_route.
  destruct (Decode_login body) as [creds | e]; simpl.
  2: { rewrite drop_app_length. simpl. repeat split; try discriminate; auto. }
  destruct (String.eqb (Email creds) "" || String.eqb (Passphrase creds) ""); simpl.
  { rewrite <- !app_assoc, drop_app_length. simpl. repeat split; try discriminate; auto. }
  destruct (Tokens_PostLogin (Email creds) (registry st)) as [[[salt lt] | e] r1]; simpl.
  2: { rewrite <- !app_assoc, drop_app_length. simpl. repeat split; try discriminate; auto. }
  destruct (DeriveLoginHMAC (Passphrase creds) salt lt) as [hmac | e]; simpl.
  2: { rewrite <- !app_assoc, drop_app_length. simpl. repeat split; try discriminate; auto. }
  destruct (Tokens_PostAuth lt hmac r1) as [[auth | e] r2]; simpl.
  2: { rewrite <- !app_assoc, drop_app_length. simpl. repeat split; try discriminate; auto. }
  destruct (Users_GetSelf auth r2) as [[self | e] r3]; simpl.
  2: { rewrite <- !app_assoc, drop_app_length. simpl. repeat split; try discriminate; auto. }
  rewrite <- !app_assoc, drop_app_length. simpl. repeat split; try discriminate; auto.
Qed.

(** X3.  A logout request on a daemon whose session holds no token is
    answered 404; the registry is not contacted and nothing is changed. *)
Theorem logoutRoute_without_token {R} `{Env R} (st : State R) :
  Token (sess st) = "" ->
  logoutRoute st =
    (tt, mkState (registry st) (sess st) (db st) (trace st ++ [EvWriteHeader StatusNotFound])).
Proof. intros Htok. run_route. rewrite Htok. reflexivity. Qed.

Lemma logoutRoute_without_token_witness :
  logoutRoute demo.fresh = (tt, mkState 0%nat NewSession ∅ [EvWriteHeader StatusNotFound]).
Proof. apply (logoutRoute_without_token (R := nat) demo.fresh). reflexivity. Defined.

(** X4.  Whatever the registry answers, the logout handler never touches the
    DB, asks the registry at most once and only to delete the session's own
    token, leaves the session either as it was or empty, and clears it
    exactly in the runs answered 204 No Content. *)
Theorem logoutRoute_invariants {R} `{Env R} (st : State R) :
  let st' := exec logoutRoute st in
  let new := new_events st st' in
  db st' = db st /\
  (filter (fun e => is_registry_call e = true) new = [] \/
   filter (fun e => is_registry_call e = true) new = [EvTokensDelete (Token (sess st))]) /\
  (sess st' = sess st \/ sess st' = NewSession) /\
  (existsb is_logout new = true <-> response new = [EvWriteHeader StatusNoContent]) /\
  (existsb is_logout new = true -> sess st' = NewSession) /\
  (existsb is_logout new = false -> sess st' = sess st).
Proof.
  intros st' new. subst st' new. unfold new_events. run_route. unfold Token.
  destruct (String.eqb (token (sess st)) ""); simpl.
  { rewrite drop_app_length. simpl. repeat split; try discriminate; auto. }
  destruct (Tokens_Delete (token (sess st)) (registry st)) as [[[code msg | msg | f a e] |] r1];
    simpl.
  - destruct (500 <=? code)%Z; simpl;
      [| destruct (400 <=? code)%Z; simpl];
      rewrite <- ?app_assoc, drop_app_length; simpl;
      repeat split; try discriminate; auto.
  - rewrite <- ?app_assoc, drop_app_length. simpl. repeat split; try discriminate; auto.
  - rewrite <- ?app_assoc, drop_app_length. simpl. repeat split; try discriminate; auto.
  - rewrite <- ?app_assoc, drop_app_length. simpl. repeat split; try discriminate; auto.
Qed.

(** X5.  When tokens.delete fails with an error that is not a registry
    error, the logout handler sends the error response and keeps the
    session; when it fails with a registry error whose status code is below
    400, the handler keeps the session and writes nothing to the response. *)
Theorem logoutRoute_other_errors {R} `{Env R} (st : State R) err r1 :
  Token (sess st) <> "" ->
  Tokens_Delete (Token (sess st)) (registry st) = (Some err, r1) ->
  (forall code msg, err = RegistryError code msg -> code < 400) ->
  let st' := exec logoutRoute st in
  sess st' = sess st /\
  existsb is_logout (new_events st st') = false /\
  response (new_events st st') =
    match err with
    | RegistryError _ _ => []
    | _ => [EvEncodeResponseErr err]
    end.
Proof.
  intros Htok Hdel Hlow st'. subst st'. unfold new_events. run_route.
  rewrite (eqb_empty_false _ Htok), Hdel.
  destruct err as [code msg | msg | f a e]; simpl.
  - assert (Hcode : code < 400) by (apply (Hlow code msg); reflexivity).
    replace (500 <=? code)%Z with false by (symmetry; apply Z.leb_gt; lia).
    replace (400 <=? code)%Z with false by (symmetry; apply Z.leb_gt; lia).
    simpl. rewrite drop_app_length. repeat split.
  - rewrite <- app_assoc, drop_app_length. repeat split.
  - rewrite <- app_assoc, drop_app_length. repeat split.
Qed.

Lemma is_empty_NewSession (s : Session) : is_empty s = true -> s = NewSession.
Proof.
  unfold is_empty. intros Hs.
  apply andb_prop in Hs as [Hs Ht]. apply andb_prop in Hs as [Hi Hp].
  apply String.eqb_eq in Hi, Hp, Ht. destruct s; simpl in *. subst. reflexivity.
Qed.

(** The run of [logoutRoute] when the registry deletes the token. *)
Lemma logoutRoute_success {R} `{Env R} (st : State R) r1 :
  Token (sess st) <> "" ->
  Tokens_Delete (Token (sess st)) (registry st) = (None, r1) ->
  logoutRoute st =
    (tt, mkState r1 NewSession (db st)
           (trace st ++
              [ EvTokensDelete (Token (sess st)); EvSessionLogout;
                EvWriteHeader StatusNoContent ])).
Proof.
  intros Htok Hdel. run_route. rewrite (eqb_empty_false _ Htok), Hdel. simpl.
  rewrite <- !app_assoc. reflexivity.
Qed.

(** The states after a successful login on an empty session and after the
    logout that follows it. *)
Lemma login_logout_run {R} `{Env R}
    body creds (st : State R) salt loginToken hmac authToken self r1 r2 r3 r4 :
  is_empty (sess st) = true ->
  Decode_login body = Ok creds ->
  Email creds <> "" -> Passphrase creds <> "" ->
  Tokens_PostLogin (Email creds) (registry st) = (Ok (salt, loginToken), r1) ->
  DeriveLoginHMAC (Passphrase creds) salt loginToken = Ok hmac ->
  Tokens_PostAuth loginToken hmac r1 = (Ok authToken, r2) ->
  Users_GetSelf authToken r2 = (Ok self, r3) ->
  authToken <> "" ->
  Tokens_Delete authToken r3 = (None, r4) ->
  let st1 := exec (loginRoute body) st in
  sess st1 = mkSession (ID self) (Passphrase creds) authToken /\
  exec logoutRoute st1 =
    mkState r4 NewSession (<[ID self := self]> (db st))
      (trace st1 ++ [EvTokensDelete authToken; EvSessionLogout; EvWriteHeader StatusNoContent]).
Proof.
  intros Hempty Hdec He Hp Hlogin Hhmac Hauth Hself Hne Hdel.
  assert (Hst1 : exec (loginRoute body) st =
                 mkState r3 (mkSession (ID self) (Passphrase creds) authToken)
                   (<[ID self := self]> (db st))
                   (trace st ++
                      [ EvPostLogin (Email creds);
                        EvDeriveLoginHMAC (Passphrase creds) salt loginToken;
                        EvPostAuth loginToken hmac;
                        EvGetSelf authToken;
                        EvDbSet self;
                        EvSessionSet (ID self) (Passphrase creds) authToken;
                        EvWriteHeader StatusNoContent ])).
  { unfold exec.
    rewrite (loginRoute_success _ _ _ _ _ _ _ _ _ _ _ Hdec He Hp Hlogin Hhmac Hauth Hself).
    simpl. unfold Set_. rewrite Hempty. reflexivity. }
  intros st1. subst st1. rewrite Hst1. split; [reflexivity |].
  unfold exec. rewrite (logoutRoute_success _ r4) by assumption. reflexivity.
Qed.

(** X6.  Login followed by logout is a round trip on the session: after a
    successful login on a daemon that was not logged in, a logout whose
    tokens.delete succeeds asks the registry to delete exactly the auth token
    the login obtained, answers 204 and leaves the session as it was before
    the login; the copy of self stays in the local DB. *)
Theorem login_then_logout {R} `{Env R}
    body creds (st : State R) salt loginToken hmac authToken self r1 r2 r3 r4 :
  is_empty (sess st) = true ->
  Decode_login body = Ok creds ->
  Email creds <> "" -> Passphrase creds <> "" ->
  Tokens_PostLogin (Email creds) (registry st) = (Ok (salt, loginToken), r1) ->
  DeriveLoginHMAC (Passphrase creds) salt loginToken = Ok hmac ->
  Tokens_PostAuth loginToken hmac r1 = (Ok authToken, r2) ->
  Users_GetSelf authToken r2 = (Ok self, r3) ->
  authToken <> "" ->
  Tokens_Delete authToken r3 = (None, r4) ->
  let st1 := exec (loginRoute body) st in
  let st2 := exec logoutRoute st1 in
  new_events st1 st2 =
    [EvTokensDelete authToken; EvSessionLogout; EvWriteHeader StatusNoContent] /\
  sess st2 = sess st /\
  registry st2 = r4 /\
  db st2 !! ID self = Some self.
Proof.
  intros Hempty Hdec He Hp Hlogin Hhmac Hauth Hself Hne Hdel st1 st2.
  destruct (login_logout_run body creds st salt loginToken hmac authToken self r1 r2 r3 r4)
    as [_ Hst2]; try assumption.
  subst st2. fold st1 in Hst2. rewrite Hst2. simpl. rewrite new_events_of.
  repeat split.
  - symmetry. apply is_empty_NewSession, Hempty.
  - apply lookup_insert_eq.
Qed.

Lemma login_then_logout_witness :
  let st1 := exec (loginRoute "a@b p") demo.fresh in
  let st2 := exec logoutRoute st1 in
  new_events st1 st2 =
    [EvTokensDelete "auth-token"; EvSessionLogout; EvWriteHeader StatusNoContent] /\
  sess st2 = sess demo.fresh /\
  registry st2 = 4%nat /\
  db st2 !! "user-alice" = Some demo.alice.
Proof.
  apply (login_then_logout (R := nat) "a@b p" (mkLogin "a@b" "p") demo.fresh
           "salt" "login-token" "p|salt|login-token" "auth-token" demo.alice
           1%nat 2%nat 3%nat 4%nat);
    first [ reflexivity | intros E; discriminate E ].
Defined.

Lemma logoutRoute_other_errors_witness :
  let st := samples.offline "tok-1" in
  sess (exec logoutRoute st) = sess st /\
  existsb is_logout (new_events st (exec logoutRoute st)) = false /\
  response (new_events st (exec logoutRoute st)) =
    [EvEncodeResponseErr (ErrorString "dial unix: connection refused")].
Proof.
  apply (logoutRoute_other_errors (R := unit) (samples.offline "tok-1")
           (ErrorString "dial unix: connection refused") tt).
  - intros E. discriminate E.
  - reflexivity.
  - intros code msg E. discriminate E.
Defined.

(** X7.  The session route reports a status only for a session that holds
    both a token and a passphrase, and the status it then reports has both
    flags true; for every other session it answers 404 with the body
    "Not logged in". *)
Theorem sessionRoute_reports_only_full_sessions `{Encoder} (s : Session) :
  (forall p, In (WEncode (Status p)) (sessionRoute s) ->
             p = mkStatus true true /\
             HasToken s = true /\ HasPassphrase s = true /\
             ~ In (WHeader StatusNotFound) (sessionRoute s)) /\
  (HasToken s = false \/ HasPassphrase s = false ->
   take 2 (sessionRoute s) =
     [ WHeader StatusNotFound;
       WEncode (ErrorMsg (mkErrorMsg unauthorizedError "Not logged in")) ]).
Proof.
  unfold sessionRoute, encode_or_report.
  destruct (HasToken s) eqn:Ht, (HasPassphrase s) eqn:Hp; simpl; split.
  all: try (intros _; reflexivity).
  all: try (intros [E | E]; discriminate E).
  all: intros p Hin;
    repeat match goal with
           | Hor : _ \/ _ |- _ => destruct Hor as [Hor | Hor]
           | Hf : False |- _ => destruct Hf
           | Heq : _ = WEncode _ |- _ => first [discriminate Heq | injection Heq as <-]
           | Hm : In _ (match ?o with Some _ => _ | None => _ end) |- _ =>
             destruct o; simpl in Hm
           | Hm : In _ (_ :: _) |- _ => simpl in Hm
           end.
  repeat split. intros Hhdr.
  destruct (json_Encode _); simpl in Hhdr;
    repeat match goal with
           | Hor : _ \/ _ |- _ => destruct Hor as [Hor | Hor]
           | Hf : False |- _ => destruct Hf
           | Heq : _ = WHeader _ |- _ => discriminate Heq
           end.
Qed.

Lemma sessionRoute_reports_only_full_sessions_witness :
  take 2 (sessionRoute (mkSession "user-alice" "p" "")) =
    [ WHeader StatusNotFound;
      WEncode (ErrorMsg (mkErrorMsg unauthorizedError "Not logged in")) ] /\
  (HasToken (mkSession "user-alice" "p" "t") = true /\
   HasPassphrase (mkSession "user-alice" "p" "t") = true).
Proof.
  split.
  - apply (proj2 (sessionRoute_reports_only_full_sessions (mkSession "user-alice" "p" ""))).
    left. reflexivity.
  - destruct (proj1 (sessionRoute_reports_only_full_sessions (mkSession "user-alice" "p" "t"))
                (mkStatus true true)) as (_ & Ht & Hp & _).
    + left. reflexivity.
    + split; [exact Ht | exact Hp].
Defined.

(** X8.  After a successful login on a daemon that was not logged in, with a
    non-empty auth token, the session route reports token and passphrase as
    present; after the logout that follows (tokens.delete succeeding) it
    answers 404 again. *)
Theorem session_after_login_and_logout {R} `{Env R} `{Encoder}
    body creds (st : State R) salt loginToken hmac authToken self r1 r2 r3 r4 :
  is_empty (sess st) = true ->
  Decode_login body = Ok creds ->
  Email creds <> "" -> Passphrase creds <> "" ->
  Tokens_PostLogin (Email creds) (registry st) = (Ok (salt, loginToken), r1) ->
  DeriveLoginHMAC (Passphrase creds) salt loginToken = Ok hmac ->
  Tokens_PostAuth loginToken hmac r1 = (Ok authToken, r2) ->
  Users_GetSelf authToken r2 = (Ok self, r3) ->
  authToken <> "" ->
  Tokens_Delete authToken r3 = (None, r4) ->
  let st1 := exec (loginRoute body) st in
  let st2 := exec logoutRoute st1 in
  head (sessionRoute (sess st1)) = Some (WEncode (Status (mkStatus true true))) /\
  head (sessionRoute (sess st2)) = Some (WHeader StatusNotFound).
Proof.
  intros Hempty Hdec He Hp Hlogin Hhmac Hauth Hself Hne Hdel st1 st2.
  destruct (login_logout_run body creds st salt loginToken hmac authToken self r1 r2 r3 r4)
    as [Hst1 Hst2]; try assumption.
  fold st1 in Hst1, Hst2. subst st2. rewrite Hst2, Hst1. simpl. split; [| reflexivity].
  unfold sessionRoute, HasToken, HasPassphrase. simpl.
  rewrite (eqb_empty_false _ Hne), (eqb_empty_false _ Hp). reflexivity.
Qed.

Lemma session_after_login_and_logout_witness :
  let st1 := exec (loginRoute "a@b p") demo.fresh in
  let st2 := exec logoutRoute st1 in
  head (sessionRoute (sess st1)) = Some (WEncode (Status (mkStatus true true))) /\
  head (sessionRoute (sess st2)) = Some (WHeader StatusNotFound).
Proof.
  apply (session_after_login_and_logout (R := nat) "a@b p" (mkLogin "a@b" "p") demo.fresh
           "salt" "login-token" "p|salt|login-token" "auth-token" demo.alice
           1%nat 2%nat 3%nat 4%nat);
    first [ reflexivity | intros E; discriminate E ].
Defined.

End routes_more.


(** ** More on the daemon's start *)

Module daemon_more.

Import daemon daemon_events daemon_events_more daemon_spec.

(** X9.  When neither pair of environment variables is complete (at most one
    variable of each pair is set), Run attempts no login: it starts the
    updates engine, then listens, and returns what Listen returns, whether or
    not the updates engine could be started. *)
Theorem Run_without_credentials {W} `{Env W} (d : Daemon W) e1 w1 res w2 :
  os_LookupEnv "TORUS_EMAIL" (world d) = None \/
  os_LookupEnv "TORUS_PASSWORD" (world d) = None ->
  os_LookupEnv "TORUS_TOKEN_ID" (world d) = None \/
  os_LookupEnv "TORUS_TOKEN_SECRET" (world d) = None ->
  updates_Start (world d) = (e1, w1) ->
  proxy_Listen w1 = (res, w2) ->
  Run d = (res, mkDaemon w2 (hasShutdown d) (trace d ++ [EvUpdatesStart; EvProxyListen])).
Proof.
  intros Huser Htoken Hstart Hlisten. run_daemon.
  destruct (os_LookupEnv "TORUS_EMAIL" (world d)) as [email |];
    destruct (os_LookupEnv "TORUS_PASSWORD" (world d)) as [password |];
    try (destruct Huser as [E | E]; discriminate E);
    destruct (os_LookupEnv "TORUS_TOKEN_ID" (world d)) as [tokenID |];
    destruct (os_LookupEnv "TORUS_TOKEN_SECRET" (world d)) as [tokenSecret |];
    try (destruct Htoken as [E | E]; discriminate E);
    simpl; rewrite Hstart; simpl; rewrite Hlisten; simpl;
    rewrite <- app_assoc; reflexivity.
Qed.

Lemma Run_without_credentials_witness :
  let h := demo.mkHost (<["TORUS_EMAIL" := "a@b"]> ∅) ["updates"] in
  Run (demo.started h) =
    (None, mkDaemon h false [EvUpdatesStart; EvProxyListen]).
Proof.
  intros h.
  apply (Run_without_credentials (demo.started h)
           (Some (ErrorString "updates is out of order")) h None h).
  - right. reflexivity.
  - left. reflexivity.
  - reflexivity.
  - reflexivity.
Defined.

(** X10.  When both TORUS_TOKEN_ID and TORUS_TOKEN_SECRET are set and the
    token id does not decode, or it does and the secret does not, Run fails
    without attempting the machine login, without starting the updates
    engine and without listening; it returns the decoding error unless the
    user login failed before. *)
Theorem Run_undecodable_token {W} `{Env W} (d : Daemon W) tokenID tokenSecret err :
  os_LookupEnv "TORUS_TOKEN_ID" (world d) = Some tokenID ->
  os_LookupEnv "TORUS_TOKEN_SECRET" (world d) = Some tokenSecret ->
  identity_DecodeFromString tokenID = Err err \/
  (exists ID, identity_DecodeFromString tokenID = Ok ID /\
              base64_NewFromString tokenSecret = Err err) ->
  let res := eval Run d in
  let new := new_events d (exec Run d) in
  existsb is_machine_login new = false /\
  existsb is_updates_start new = false /\
  existsb is_listen new = false /\
  (res = Some err \/ exists l err', new = [EvLogin l (Some err')] /\ res = Some err').
Proof.
  intros Hid Hsecret Hbad res new. subst res new. run_daemon.
  rewrite Hid, Hsecret.
  destruct (os_LookupEnv "TORUS_EMAIL" (world d)) as [email |];
    destruct (os_LookupEnv "TORUS_PASSWORD" (world d)) as [password |];
    simpl;
    try match goal with
        | |- context [Session_Login ?l ?w] =>
          destruct (Session_Login l w) as [[e |] w1]; simpl
        end;
    (destruct Hbad as [Hbad | (ID & Hok & Hbad)];
     [rewrite ?Hbad | rewrite ?Hok, ?Hbad]);
    simpl; since_start; repeat split;
    first [ left; reflexivity | right; do 2 eexists; split; reflexivity ].
Qed.

Lemma Run_undecodable_token_witness :
  let h := demo.mkHost (<["TORUS_TOKEN_ID" := ""]> (<["TORUS_TOKEN_SECRET" := "c2VjcmV0"]> ∅)) [] in
  eval Run (demo.started h) = Some (ErrorString "invalid identity") /\
  new_events (demo.started h) (exec Run (demo.started h)) = [].
Proof.
  intros h.
  destruct (Run_undecodable_token (demo.started h) "" "c2VjcmV0"
              (ErrorString "invalid identity")) as (_ & _ & _ & Hres).
  - reflexivity.
  - reflexivity.
  - left. reflexivity.
  - split; reflexivity.
Defined.

(** X11.  When both pairs are set, the token decodes and the user login
    succeeds, Run attempts both logins: the user login first, then the
    machine login in the world the user login left; nothing else is called
    before them. *)
Theorem Run_user_login_then_machine_login {W} `{Env W}
    (d : Daemon W) email password tokenID tokenSecret ID secret w1 r w2 :
  os_LookupEnv "TORUS_EMAIL" (world d) = Some email ->
  os_LookupEnv "TORUS_PASSWORD" (world d) = Some password ->
  os_LookupEnv "TORUS_TOKEN_ID" (world d) = Some tokenID ->
  os_LookupEnv "TORUS_TOKEN_SECRET" (world d) = Some tokenSecret ->
  identity_DecodeFromString tokenID = Ok ID ->
  base64_NewFromString tokenSecret = Ok secret ->
  Session_Login (UserLogin email password) (world d) = (None, w1) ->
  Session_Login (MachineLogin ID secret) w1 = (r, w2) ->
  take 2 (new_events d (exec Run d)) =
    [EvLogin (UserLogin email password) None; EvLogin (MachineLogin ID secret) r].
Proof.
  intros He Hp Ht Hs Hid Hsec Huser Hmachine. run_daemon.
  rewrite He, Hp, Ht, Hs. simpl. rewrite Huser. simpl.
  rewrite Hid, Hsec. simpl. rewrite Hmachine. simpl.
  destruct r as [e |]; simpl.
  - since_start. reflexivity.
  - destruct (updates_Start w2) as [e1 w3]; simpl.
    destruct (proxy_Listen w3) as [e2 w4]; simpl.
    since_start. reflexivity.
Qed.

Lemma Run_user_login_then_machine_login_witness :
  let h := demo.mkHost demo.both_pairs [] in
  take 2 (new_events (demo.started h) (exec Run (demo.started h))) =
    [EvLogin (UserLogin "a@b" "p") None; EvLogin (MachineLogin "token-1" "c2VjcmV0") None].
Proof.
  intros h.
  apply (Run_user_login_then_machine_login (demo.started h)
           "a@b" "p" "token-1" "c2VjcmV0" "token-1" "c2VjcmV0" h None h);
    reflexivity.
Defined.

End daemon_more.


(** ** More on machine tokens *)

Module logic_more.

Import logic logic_events logic_claims.

Ltac run_keypairs :=
  unfold generateKeypairs, onWorld, emit, exec, eval, bind, ret; simpl.

Section KeyPairs.
Context {W : Type} `{Env W}.

(** [generateKeypairs] reports no progress and posts nothing. *)
Lemma generateKeypairs_silent c orgID authID kp (st : State W) :
  trace (exec (generateKeypairs c orgID authID kp) st) = trace st.
Proof.
  run_keypairs.
  destruct (packageSigningKeypair c authID orgID kp (world st)) as [[[pubsig privsig] | e] w1];
    simpl; [| reflexivity].
  destruct (Engine_SignedClaim c _ (pk_ID pubsig) (Signature kp) w1) as [[sigclaim | e] w2];
    simpl; [| reflexivity].
  destruct (packageEncryptionKeypair c authID orgID kp pubsig w2)
    as [[[pubenc privenc] | e] w3]; simpl; [| reflexivity].
  destruct (Engine_SignedClaim c _ (pk_ID pubsig) (Signature kp) w3) as [[encclaim | e] w4];
    reflexivity.
Qed.

(** A successful [generateKeypairs] returns two claimed key pairs. *)
Lemma generateKeypairs_shape c orgID authID kp (st st' : State W) keypairs :
  generateKeypairs c orgID authID kp st = (Ok keypairs, st') ->
  exists a b, keypairs = [a; b].
Proof.
  run_keypairs.
  destruct (packageSigningKeypair c authID orgID kp (world st)) as [[[pubsig privsig] | e] w1];
    simpl; [| discriminate].
  destruct (Engine_SignedClaim c _ (pk_ID pubsig) (Signature kp) w1) as [[sigclaim | e] w2];
    simpl; [| discriminate].
  destruct (packageEncryptionKeypair c authID orgID kp pubsig w2)
    as [[[pubenc privenc] | e] w3]; simpl; [| discriminate].
  destruct (Engine_SignedClaim c _ (pk_ID pubsig) (Signature kp) w3) as [[encclaim | e] w4];
    simpl; [| discriminate].
  intros Heq. injection Heq as <- <-. eauto.
Qed.

End KeyPairs.

(** X12.  When generateKeypairs succeeds it returns exactly two claimed key
    pairs, the packaged signing pair first and the packaged encryption pair
    second, each with exactly one claim; both claims are of the signature
    type, name the key itself as key and as previous, and are signed with the
    signing key pair, also the claim of the encryption key. *)
Theorem generateKeypairs_two_claimed_pairs {W} `{Env W}
    c orgID authID kp (st st' : State W) keypairs :
  generateKeypairs c orgID authID kp st = (Ok keypairs, st') ->
  exists pubsig privsig sigclaim pubenc privenc encclaim w1 w2 w3,
    packageSigningKeypair c authID orgID kp (world st) = (Ok (pubsig, privsig), w1) /\
    Engine_SignedClaim c
      (primitive_NewClaim orgID authID (pk_ID pubsig) (pk_ID pubsig) SignatureClaimType)
      (pk_ID pubsig) (Signature kp) w1 = (Ok sigclaim, w2) /\
    packageEncryptionKeypair c authID orgID kp pubsig w2 = (Ok (pubenc, privenc), w3) /\
    Engine_SignedClaim c
      (primitive_NewClaim orgID authID (pk_ID pubenc) (pk_ID pubenc) SignatureClaimType)
      (pk_ID pubsig) (Signature kp) w3 = (Ok encclaim, world st') /\
    keypairs =
      [ mkClaimedKeyPair (mkPublicKeySegment pubsig [sigclaim]) privsig;
        mkClaimedKeyPair (mkPublicKeySegment pubenc [encclaim]) privenc ].
Proof.
  run_keypairs.
  destruct (packageSigningKeypair c authID orgID kp (world st)) as [[[pubsig privsig] | e] w1]
    eqn:Hsig; simpl; [| discriminate].
  destruct (Engine_SignedClaim c _ (pk_ID pubsig) (Signature kp) w1) as [[sigclaim | e] w2]
    eqn:Hsigclaim; simpl; [| discriminate].
  destruct (packageEncryptionKeypair c authID orgID kp pubsig w2)
    as [[[pubenc privenc] | e] w3] eqn:Henc; simpl; [| discriminate].
  destruct (Engine_SignedClaim c _ (pk_ID pubsig) (Signature kp) w3) as [[encclaim | e] w4]
    eqn:Hencclaim; simpl; [| discriminate].
  intros Heq. injection Heq as <- <-. simpl.
  exists pubsig, privsig, sigclaim, pubenc, privenc, encclaim, w1, w2, w3.
  repeat split; assumption.
Qed.

Lemma generateKeypairs_two_claimed_pairs_witness :
  exists keypairs st',
    generateKeypairs (NewEngine Empty) "org-1" "token-1"
      (mkKeyPairs (mkKeyPair "sig-pub" "sig-priv") (mkKeyPair "enc-pub" "enc-priv"))
      demo.engine_start = (Ok keypairs, st') /\
    length keypairs = 2%nat.
Proof.
  destruct (generateKeypairs (NewEngine Empty) "org-1" "token-1"
              (mkKeyPairs (mkKeyPair "sig-pub" "sig-priv") (mkKeyPair "enc-pub" "enc-priv"))
              demo.engine_start) as [[keypairs | e] st'] eqn:Hrun;
    [| vm_compute in Hrun; discriminate Hrun].
  exists keypairs, st'. split; [reflexivity |].
  destruct (generateKeypairs_two_claimed_pairs _ _ _ _ _ _ _ Hrun)
    as (pubsig & privsig & sigclaim & pubenc & privenc & encclaim & w1 & w2 & w3 &
        _ & _ & _ & _ & ->).
  reflexivity.
Defined.

(** X13.  The token a successful CreateToken returns is fresh: version 1, not
    destroyed, created by the identity of the engine's session at the clock's
    time, with the id that identity.NewMutable generated for exactly its
    body; the segment carries exactly two key pairs. *)
Theorem CreateToken_fresh_token {W} `{Env W} machine secret (st st' : State W) seg :
  CreateToken machine secret st = (Ok seg, st') ->
  let token := Token seg in
  tok_Version token = 1 /\
  mt_DestroyedBy (tok_Body token) = None /\
  mt_Destroyed (tok_Body token) = None /\
  length (Keypairs seg) = 2%nat /\
  exists w w' w'',
    mt_CreatedBy (tok_Body token) = engine_session_ID w /\
    time_Now_UTC w = (mt_Created (tok_Body token), w') /\
    identity_NewMutable (tok_Body token) w' = (Ok (tok_ID token), w'').
Proof.
  run_logic.
  destruct (crypto_GenerateSalt (world st)) as [[salt|e] w1]; simpl; [| discriminate].
  destruct (crypto_DeriveLoginKeypair secret salt w1) as [[keypair|e] w2]; simpl;
    [| discriminate].
  destruct (crypto_CreateMasterKeyObject secret None w2) as [[masterKey|e] w3];
    simpl; [| discriminate].
  destruct (time_Now_UTC w3) as [created w4] eqn:Hnow; simpl.
  destruct (identity_NewMutable _ w4) as [[tokenID|e] w5] eqn:Hid; simpl; [| discriminate].
  destruct (Engine_GenerateKeyPairs _ w5) as [[kp|e] w6]; simpl; [| discriminate].
  destruct (generateKeypairs _ _ _ kp _) as [[keypairs|e] st6] eqn:Hkps; [| discriminate].
  intros Heq. injection Heq as <- <-. simpl.
  split; [reflexivity |]. split; [reflexivity |]. split; [reflexivity |]. split.
  - destruct (generateKeypairs_shape _ _ _ _ _ _ _ Hkps) as (a & b & ->). reflexivity.
  - exists w3, w4, w5. repeat split; assumption.
Qed.

Lemma CreateToken_fresh_token_witness :
  exists seg st',
    CreateToken demo.worker "c2VjcmV0" demo.engine_start = (Ok seg, st') /\
    tok_Version (Token seg) = 1 /\
    mt_DestroyedBy (tok_Body (Token seg)) = None /\
    mt_Destroyed (tok_Body (Token seg)) = None /\
    length (Keypairs seg) = 2%nat.
Proof.
  destruct (CreateToken demo.worker "c2VjcmV0" demo.engine_start) as [[seg | e] st'] eqn:Hrun;
    [| vm_compute in Hrun; discriminate Hrun].
  exists seg, st'. split; [reflexivity |].
  destruct (CreateToken_fresh_token _ _ _ _ _ Hrun) as (Hv & Hby & Hd & Hlen & _).
  repeat split; assumption.
Defined.

(** X14.  CreateToken reports at most its two progress steps, in order
    ("Generating machine token", then "Generating token keypairs"), and
    never posts a keyring membership; a run that succeeds has reported both
    steps. *)
Theorem CreateToken_progress {W} `{Env W} machine secret (st : State W) :
  let new := new_events st (exec (CreateToken machine secret) st) in
  posts new = [] /\
  (new = [EvNotify "Generating machine token"] \/
   new = [EvNotify "Generating machine token"; EvNotify "Generating token keypairs"]) /\
  (forall seg, eval (CreateToken machine secret) st = Ok seg ->
               new = [EvNotify "Generating machine token";
                      EvNotify "Generating token keypairs"]).
Proof.
  intros new. subst new. unfold new_events. run_logic.
  destruct (crypto_GenerateSalt (world st)) as [[salt|e] w1]; simpl.
  2: { rewrite drop_app_length. split; [reflexivity |].
       split; [left; reflexivity | intros seg E; discriminate E]. }
  destruct (crypto_DeriveLoginKeypair secret salt w1) as [[keypair|e] w2]; simpl.
  2: { rewrite drop_app_length. split; [reflexivity |].
       split; [left; reflexivity | intros seg E; discriminate E]. }
  destruct (crypto_CreateMasterKeyObject secret None w2) as [[masterKey|e] w3]; simpl.
  2: { rewrite drop_app_length. split; [reflexivity |].
       split; [left; reflexivity | intros seg E; discriminate E]. }
  destruct (time_Now_UTC w3) as [created w4]; simpl.
  destruct (identity_NewMutable _ w4) as [[tokenID|e] w5]; simpl.
  2: { rewrite drop_app_length. split; [reflexivity |].
       split; [left; reflexivity | intros seg E; discriminate E]. }
  destruct (Engine_GenerateKeyPairs _ w5) as [[kp|e] w6]; simpl.
  2: { rewrite <- app_assoc, drop_app_length. split; [reflexivity |].
       split; [right; reflexivity | intros seg E; discriminate E]. }
  match goal with
  | |- context [generateKeypairs ?c ?o ?a kp ?s] =>
    pose proof (generateKeypairs_silent c o a kp s) as Hsilent;
      unfold exec in Hsilent;
      destruct (generateKeypairs c o a kp s) as [[keypairs|e] st6]
  end; simpl in *; rewrite Hsilent, <- app_assoc, drop_app_length;
    (split; [reflexivity |]; split; [right; reflexivity | intros seg E; reflexivity]).
Qed.

Lemma CreateToken_progress_witness :
  new_events demo.engine_start (exec (CreateToken demo.worker "c2VjcmV0") demo.engine_start)
  = [EvNotify "Generating machine token"; EvNotify "Generating token keypairs"].
Proof.
  destruct (CreateToken_progress demo.worker "c2VjcmV0" demo.engine_start) as (_ & _ & Hok).
  destruct (eval (CreateToken demo.worker "c2VjcmV0") demo.engine_start) as [seg | e] eqn:Hrun;
    [| vm_compute in Hrun; discriminate Hrun].
  apply (Hok seg). reflexivity.
Defined.

(** X15.  EncodeToken announces the derivation of the memberships first; it
    announces the upload exactly when the derivation succeeded, and every
    post it makes comes after that announcement. *)
Theorem EncodeToken_progress {W} `{Env W} token (st : State W) :
  let new := new_events st (exec (EncodeToken token) st) in
  exists rest,
    new = EvNotify "Creating keyring memberships for token" :: rest /\
    match fst (createKeyringMemberships (mt_OrgID (tok_Body token)) (tok_ID token) (world st))
    with
    | Err _ => rest = []
    | Ok _ => exists posted,
        rest = EvNotify "Uploading keyring memberships" :: map event_of posted
    end.
Proof.
  intros new. subst new. unfold new_events, exec. run_logic.
  destruct (createKeyringMemberships _ _ (world st)) as [[[v1 v2] | e] w1]; simpl.
  2: { rewrite drop_app_length. eexists. split; reflexivity. }
  destruct v1 as [| m1 v1]; simpl.
  - match goal with
    | |- context [postMembers v2 ?s] =>
      destruct (postMembers_posts v2 s) as (posted & Htrace & _);
        unfold exec in Htrace; destruct (postMembers v2 s) as [res st2]
    end.
    simpl in *. rewrite Htrace, <- !app_assoc, drop_app_length. simpl.
    eexists. split; [reflexivity |]. exists posted. reflexivity.
  - destruct (KeyringMember_Post (m1 :: v1) w1) as [[err |] w2]; simpl.
    + rewrite <- !app_assoc, drop_app_length. simpl.
      eexists. split; [reflexivity |]. exists [(Batch (m1 :: v1), Some err)]. reflexivity.
    + match goal with
      | |- context [postMembers v2 ?s] =>
        destruct (postMembers_posts v2 s) as (posted & Htrace & _);
          unfold exec in Htrace; destruct (postMembers v2 s) as [res st2]
      end.
      simpl in *. rewrite Htrace, <- !app_assoc, drop_app_length. simpl.
      eexists. split; [reflexivity |].
      exists ((Batch (m1 :: v1), None) :: posted). reflexivity.
Qed.

End logic_more.


(** ** More on the credentials client *)

Module api_more.

Import api Go_facts api_claims credentials_props credentials_props_more.

Section Envelopes.
Context `{Codec}.

Lemma createEnvelopes_app l1 l2 : forall results,
  createEnvelopes (l1 ++ l2) results =
    match createEnvelopes l1 results with
    | Ok r => createEnvelopes l2 r
    | Err e => Err e
    end.
Proof.
  induction l1 as [| c l1 IH]; intros results; simpl; [reflexivity |].
  destruct (resp_Version c =? 1)%Z.
  - destruct (Unmarshal_BaseCredential (resp_Body c)); [apply IH | reflexivity].
  - destruct (resp_Version c =? 2)%Z; [| reflexivity].
    destruct (Unmarshal_CredentialV2 (resp_Body c)); [apply IH | reflexivity].
Qed.

Lemma createEnvelopes_decodable resp : forall results,
  Forall decodable resp -> exists envs, createEnvelopes resp results = Ok envs.
Proof.
  induction resp as [| c rest IH]; intros results Hall; simpl; [eauto |].
  inversion Hall as [| c' rest' Hc Hrest]; subst.
  destruct Hc as [[Hv (b & Hb)] | [Hv (b & Hb)]]; rewrite Hv; simpl; rewrite Hb;
    apply IH, Hrest.
Qed.

End Envelopes.

(** X16.  When createEnvelopesFromResp succeeds it returns one envelope per
    response, in the order of the responses, each with the id and version of
    its response and a body of the type that the version selects
    (BaseCredential for 1, CredentialV2 for 2). *)
Theorem createEnvelopesFromResp_keeps_order `{Codec} resp envs :
  createEnvelopesFromResp resp = Ok envs ->
  map env_ID envs = map resp_ID resp /\
  map env_Version envs = map resp_Version resp /\
  Forall (fun env => match env_Body env with
                     | V1 _ => env_Version env = 1
                     | V2 _ => env_Version env = 2
                     end) envs.
Proof.
  intros Hrun. apply createEnvelopesFromResp_decoded in Hrun.
  induction Hrun as [| env r envs resp (Hid & Hv & Hbody) _ (IHid & IHv & IHbody)]; simpl.
  - repeat split. constructor.
  - rewrite Hid, Hv, IHid, IHv. repeat split. constructor; [| exact IHbody].
    destruct Hbody as [[Hv1 (b & _ & ->)] | [Hv2 (b & _ & ->)]]; congruence.
Qed.

Lemma createEnvelopesFromResp_keeps_order_witness :
  map env_ID
    [mkCredentialEnvelope "cred-1" 2
       (V2 (mkCredentialV2 (mkBaseCredential "DB_URL" "/o/p" (Some "x")) None));
     mkCredentialEnvelope "cred-2" 1 (V1 (mkBaseCredential "KEY" "/o/p" None))]
  = ["cred-1"; "cred-2"].
Proof.
  apply (createEnvelopesFromResp_keeps_order
           [mkCredentialResp "cred-1" 2 "/o/p DB_URL=x"; mkCredentialResp "cred-2" 1 "/o/p KEY"]).
  vm_compute. reflexivity.
Defined.

(** X17.  createEnvelopesFromResp is all or nothing: it succeeds exactly when
    every response has version 1 or 2 and a body that unmarshals; a response
    with any other version, after responses that decode, makes it fail with
    "Unknown credential version" and no envelope is returned. *)
Theorem createEnvelopesFromResp_all_or_nothing `{Codec} resp :
  ((exists envs, createEnvelopesFromResp resp = Ok envs) <-> Forall decodable resp) /\
  (forall good c rest,
      resp = good ++ c :: rest ->
      Forall decodable good ->
      resp_Version c <> 1 -> resp_Version c <> 2 ->
      createEnvelopesFromResp resp = Err (ErrorString "Unknown credential version")).
Proof.
  split; [split |].
  - intros [envs Hrun]. apply createEnvelopesFromResp_decoded in Hrun.
    induction Hrun as [| env r envs resp (_ & _ & Hbody) _ IH]; constructor; [| exact IH].
    destruct Hbody as [[Hv (b & Hb & _)] | [Hv (b & Hb & _)]]; [left | right]; eauto.
  - intros Hall. apply createEnvelopes_decodable, Hall.
  - intros good c rest -> Hgood Hv1 Hv2. unfold createEnvelopesFromResp.
    rewrite createEnvelopes_app.
    destruct (createEnvelopes_decodable good [] Hgood) as [envs ->]. simpl.
    apply Z.eqb_neq in Hv1, Hv2. rewrite Hv1, Hv2. reflexivity.
Qed.

Lemma createEnvelopesFromResp_all_or_nothing_witness :
  createEnvelopesFromResp
    [mkCredentialResp "cred-1" 2 "/o/p DB_URL=x"; mkCredentialResp "cred-3" 3 "/o/p KEY"]
  = Err (ErrorString "Unknown credential version").
Proof.
  apply (proj2 (createEnvelopesFromResp_all_or_nothing _)
           [mkCredentialResp "cred-1" 2 "/o/p DB_URL=x"]
           (mkCredentialResp "cred-3" 3 "/o/p KEY") []).
  - reflexivity.
  - constructor; [| constructor]. right. split; [reflexivity |]. eexists. reflexivity.
  - discriminate.
  - discriminate.
Defined.

Section Query.
Context `{Codec}.

Lemma team_ids_added ids : forall (v : Values),
  ids <> [] ->
  fold_left (fun v t => Values_Add "team_id" (ID_String t) v) ids v !! "team_id"
  = Some (default [] (v !! "team_id") ++ map ID_String ids).
Proof.
  induction ids as [| t ids IH]; intros v Hne; [contradiction |].
  simpl. destruct ids as [| t' ids].
  - simpl. unfold Values_Add. apply lookup_insert_eq.
  - rewrite IH by discriminate. unfold Values_Add.
    rewrite lookup_insert_eq. simpl. rewrite <- app_assoc. reflexivity.
Qed.

End Query.

(** X18.  The query of a search carries the team ids as the values of
    [team_id], each printed with String(), in the order given; when no team
    ids are given (a nil pointer or an empty list) the query has no
    [team_id] at all. *)
Theorem Search_query_team_ids `{Codec} pathexp teamIDs :
  Search_query pathexp teamIDs !! "team_id" =
    match teamIDs with
    | Some (t :: ids) => Some (map ID_String (t :: ids))
    | _ => None
    end.
Proof.
  unfold Search_query. destruct teamIDs as [[| t ids] |]; try reflexivity.
  rewrite team_ids_added by discriminate. reflexivity.
Qed.

End api_more.


(** ** The teams client *)

Module api_teams_props.

Import api api_teams.

Ltac run_teams :=
  unfold GetByOrg, GetByName, Create, NewRequest, call, exec, eval, bind, ret; simpl.

Example GetByName_workers :
  eval (GetByName "org-1" "workers") (mkState 0%nat []) =
    Ok [mkTeamResult (Some "team-1") 1 (Some samples.workers)].
Proof. vm_compute. reflexivity. Qed.

Example GetByName_with_foreign_body :
  eval (GetByName "org-1" "broken") (mkState 0%nat []) = Err (ErrorString "invalid team body").
Proof. vm_compute. reflexivity. Qed.

(** The loop writes the results of the remaining teams behind the first [i]
    entries. *)
Lemma buildLoop_spec (teams : list Unsigned) : forall i (teamResults : list TeamResult),
  length teamResults = (i + length teams)%nat ->
  buildLoop teams i teamResults =
    match all_results teams with
    | Some rs => Ok (take i teamResults ++ rs)
    | None => Err (ErrorString "invalid team body")
    end.
Proof.
  induction teams as [| t rest IH]; intros i teamResults Hlen; simpl.
  - simpl in Hlen. rewrite Nat.add_0_r in Hlen.
    rewrite app_nil_r, firstn_all2 by lia. reflexivity.
  - unfold as_result. simpl in Hlen.
    destruct (u_Body t) as [| teamBody | kind]; try reflexivity.
    rewrite IH by (rewrite length_insert; lia).
    destruct (all_results rest) as [rs |]; [| reflexivity].
    rewrite (take_S_r _ _ (mkTeamResult (u_ID t) (u_Version t) (Some teamBody)))
      by (apply list_lookup_insert_eq; lia).
    rewrite take_insert_ge by lia. rewrite <- app_assoc. reflexivity.
Qed.

(** X19.  buildTeamResults is all or nothing and keeps the order: when every
    envelope's body is a team, the result has one entry per envelope, in
    order, each with the id, version and team of its envelope; when some
    body is not a team (or is absent), the result is the error
    "invalid team body" and no entry. *)
Theorem buildTeamResults_spec (teams : list Unsigned) :
  buildTeamResults teams =
    match all_results teams with
    | Some rs => Ok rs
    | None => Err (ErrorString "invalid team body")
    end.
Proof.
  unfold buildTeamResults.
  rewrite buildLoop_spec by (rewrite length_replicate; reflexivity).
  destruct (all_results teams); reflexivity.
Qed.

Lemma buildTeamResults_spec_example :
  buildTeamResults
    [mkUnsigned (Some "team-1") 1 (TeamBody samples.workers);
     mkUnsigned (Some "org-1") 1 (OtherBody "org")]
  = Err (ErrorString "invalid team body").
Proof. reflexivity. Qed.

(** X20.  GetByOrg and GetByName decode the answer into a slice made with
    one zero element and build their result from what Do left in it: when Do
    succeeds without touching the slice the lookup fails with
    "invalid team body", and when Do leaves an empty list the lookup returns
    the empty list.  Exactly one request is sent. *)
Theorem team_lookup_builds_from_slice {W} `{Client W} orgID name (st : State W) :
  (forall req teams w',
      NewRequest "GET" "/teams" (Some (Values_Set "org_id" (ID_String orgID) ∅)) None true
        = Ok req ->
      Do_into req [zeroUnsigned] (world st) = (Ok teams, w') ->
      GetByOrg orgID st = (buildTeamResults teams, mkState w' (trace st ++ [EvDo req])) /\
      (teams = [zeroUnsigned] ->
       eval (GetByOrg orgID) st = Err (ErrorString "invalid team body")) /\
      (teams = [] -> eval (GetByOrg orgID) st = Ok [])) /\
  (forall req teams w',
      NewRequest "GET" "/teams"
        (Some (Values_Set "name" name (Values_Set "org_id" (ID_String orgID) ∅))) None true
        = Ok req ->
      Do_into req [zeroUnsigned] (world st) = (Ok teams, w') ->
      GetByName orgID name st = (buildTeamResults teams, mkState w' (trace st ++ [EvDo req])) /\
      (teams = [zeroUnsigned] ->
       eval (GetByName orgID name) st = Err (ErrorString "invalid team body")) /\
      (teams = [] -> eval (GetByName orgID name) st = Ok [])).
Proof.
  split; intros req teams w' Hreq Hdo.
  - assert (Hrun : GetByOrg orgID st
                   = (buildTeamResults teams, mkState w' (trace st ++ [EvDo req]))).
    { unfold GetByOrg. cbv zeta. rewrite Hreq. unfold call, bind, ret. simpl.
      rewrite Hdo. reflexivity. }
    split; [exact Hrun |]. unfold eval. rewrite Hrun. simpl.
    split; intros ->; reflexivity.
  - assert (Hrun : GetByName orgID name st
                   = (buildTeamResults teams, mkState w' (trace st ++ [EvDo req]))).
    { unfold GetByName. cbv zeta. rewrite Hreq. unfold call, bind, ret. simpl.
      rewrite Hdo. reflexivity. }
    split; [exact Hrun |]. unfold eval. rewrite Hrun. simpl.
    split; intros ->; reflexivity.
Qed.

Lemma team_lookup_builds_from_slice_witness :
  eval (GetByOrg "org-1") (mkState 0%nat []) = Err (ErrorString "invalid team body") /\
  GetByName "org-1" "workers" (mkState 0%nat []) =
    (Ok [mkTeamResult (Some "team-1") 1 (Some samples.workers)],
     mkState 1%nat
       [EvDo (mkRequest "GET" "/teams"
                (Some (Values_Set "name" "workers" (Values_Set "org_id" "org-1" ∅)))
                None true)]).
Proof.
  destruct (team_lookup_builds_from_slice (W := nat) "org-1" "workers" (mkState 0%nat []))
    as [Horg Hname].
  split.
  - destruct (Horg (mkRequest "GET" "/teams" (Some (Values_Set "org_id" "org-1" ∅)) None true)
                   [zeroUnsigned] 1%nat) as (_ & Hzero & _);
      [reflexivity | reflexivity |].
    apply Hzero. reflexivity.
  - destruct (Hname (mkRequest "GET" "/teams"
                       (Some (Values_Set "name" "workers" (Values_Set "org_id" "org-1" ∅)))
                       None true)
                    [mkUnsigned (Some "team-1") 1 (TeamBody samples.workers)] 1%nat)
      as (Hrun & _); [reflexivity | reflexivity |].
    exact Hrun.
Defined.

(** X21.  Create refuses a nil org with "invalid org" before anything is
    drawn or sent.  Every request it sends is a POST to /teams of a
    version-1 team envelope of type "user" with the given name and org,
    under the id that identity.Mutable drew for that body; it sends at most
    one. *)
Theorem Create_posts_user_team {W} `{Client W} orgID name (st : State W) :
  let res := eval (Create orgID name) st in
  let new := new_events st (exec (Create orgID name) st) in
  (orgID = None -> res = Some (ErrorString "invalid org") /\ new = []) /\
  (forall req, In (EvDo req) new ->
     exists id w',
       identity_Mutable (mkTeam name orgID "user") (world st) = (Ok id, w') /\
       is_Some orgID /\
       req = mkRequest "POST" "/teams" None
               (Some (mkTeamEnvelope id 1 (mkTeam name orgID "user"))) true /\
       new = [EvMutable (mkTeam name orgID "user"); EvDo req]).
Proof.
  intros res new. subst res new. unfold new_events. run_teams.
  destruct orgID as [o |]; simpl.
  2: { rewrite drop_all. split; [intros _; split; reflexivity |].
       intros req []. }
  split; [intros E; discriminate E |].
  destruct (identity_Mutable (mkTeam name (Some o) "user") (world st)) as [[id | e] w1] eqn:Hid;
    simpl.
  2: { rewrite drop_app_length. intros req [E | []]. discriminate E. }
  destruct (NewRequest_error _) as [e |]; simpl.
  { rewrite drop_app_length. intros req [E | []]. discriminate E. }
  destruct (Do_only _ w1) as [e w2]; simpl.
  rewrite <- app_assoc, drop_app_length. simpl.
  intros req [E | [E | []]]; [discriminate E |]. injection E as <-.
  exists id, w1. repeat split. eauto.
Qed.

Lemma Create_posts_user_team_witness :
  eval (Create None "workers") (mkState 0%nat []) = Some (ErrorString "invalid org") /\
  new_events (mkState 0%nat []) (exec (Create (Some "org-1") "workers") (mkState 0%nat [])) =
    [ EvMutable (mkTeam "workers" (Some "org-1") "user");
      EvDo (mkRequest "POST" "/teams" None
              (Some (mkTeamEnvelope "team-2" 1 (mkTeam "workers" (Some "org-1") "user")))
              true) ].
Proof.
  split.
  - apply (proj1 (Create_posts_user_team (W := nat) None "workers" (mkState 0%nat []))).
    reflexivity.
  - destruct (proj2 (Create_posts_user_team (W := nat) (Some "org-1") "workers"
                       (mkState 0%nat []))
                (mkRequest "POST" "/teams" None
                   (Some (mkTeamEnvelope "team-2" 1 (mkTeam "workers" (Some "org-1") "user")))
                   true))
      as (id & w' & _ & _ & _ & Hnew).
    + vm_compute. right. left. reflexivity.
    + exact Hnew.
Defined.

End api_teams_props.


(** ** More on the machine bootstrap *)

Module cmd_more.

Import cmd os_steps Go_facts.

Section Bootstrap.
Context `{Env}.

(** What a run of [writeEnvironmentFile] does, in one piece. *)
Lemma writeEnvironmentFile_run token secret (fs : os.FS) :
  writeEnvironmentFile token secret fs =
    let fs1 := after_mkdir fs in
    let envPath := os.Join GlobalRoot EnvironmentFile in
    if bool_decide (is_Some (os.dirs fs1 !! envPath)) then (Some os.ErrIsDir, fs1)
    else if bool_decide (is_Some (os.dirs fs1 !! GlobalRoot)) then
      (None, os.mkFS (os.dirs fs1)
               (<[envPath := os.mkFile (environment_lines token secret) 384]> (os.files fs1))
               (os.umask fs1))
    else (Some os.ErrNotExist, fs1).
Proof.
  unfold writeEnvironmentFile. rewrite !bind_run. cbv zeta.
  assert (Hfs1 : ((if os.IsNotExist (os.Stat GlobalRoot fs).1
                   then let* _ := os.Mkdir GlobalRoot 448 in ret ()
                   else ret ()) (os.Stat GlobalRoot fs).2).2 = after_mkdir fs).
  { unfold os.Stat, after_mkdir. destruct (os.exists_ GlobalRoot fs) eqn:Hex; simpl.
    - reflexivity.
    - rewrite bind_run. unfold os.Mkdir. rewrite Hex.
      destruct (bool_decide (is_Some (os.dirs fs !! os.Dir GlobalRoot))); reflexivity. }
  rewrite Hfs1. generalize (after_mkdir fs). intros fs1.
  unfold os.Create.
  destruct (bool_decide (is_Some (os.dirs fs1 !! os.Join GlobalRoot EnvironmentFile)));
    [reflexivity |].
  change (os.Dir (os.Join GlobalRoot EnvironmentFile)) with GlobalRoot.
  destruct (bool_decide (is_Some (os.dirs fs1 !! GlobalRoot))); [| reflexivity].
  cbn [fst snd]. rewrite !bind_run.
  unfold os.Chmod. cbn [os.files]. rewrite lookup_insert_eq. cbn [fst snd].
  unfold bufio.Flush, os.File_Write. cbn [os.files]. rewrite lookup_insert_eq.
  cbn [fst snd]. unfold ret. cbn [os.files os.dirs os.umask os.content os.mode bufio.file bufio.buf].
  rewrite !insert_insert_eq. reflexivity.
Qed.

Lemma after_mkdir_files (fs : os.FS) : os.files (after_mkdir fs) = os.files fs.
Proof.
  unfold after_mkdir. destruct (os.exists_ GlobalRoot fs); [reflexivity |].
  destruct (bool_decide _); reflexivity.
Qed.

Lemma after_mkdir_umask (fs : os.FS) : os.umask (after_mkdir fs) = os.umask fs.
Proof.
  unfold after_mkdir. destruct (os.exists_ GlobalRoot fs); [reflexivity |].
  destruct (bool_decide _); reflexivity.
Qed.

Lemma after_mkdir_dirs (fs : os.FS) p :
  p <> GlobalRoot -> os.dirs (after_mkdir fs) !! p = os.dirs fs !! p.
Proof.
  intros Hp. unfold after_mkdir. destruct (os.exists_ GlobalRoot fs); [reflexivity |].
  destruct (bool_decide _); [| reflexivity]. simpl.
  apply lookup_insert_ne. intros E. apply Hp. symmetry. exact E.
Qed.

End Bootstrap.

(** X22.  Whatever its outcome, writeEnvironmentFile touches no file other
    than /etc/torus/token.environment and no directory other than
    /etc/torus, and leaves the umask alone. *)
Theorem writeEnvironmentFile_frame `{Env} token secret (fs : os.FS) :
  let fs' := exec (writeEnvironmentFile token secret) fs in
  (forall p, p <> os.Join GlobalRoot EnvironmentFile ->
             os.files fs' !! p = os.files fs !! p) /\
  (forall p, p <> GlobalRoot -> os.dirs fs' !! p = os.dirs fs !! p) /\
  os.umask fs' = os.umask fs.
Proof.
  intros fs'. subst fs'. unfold exec. rewrite writeEnvironmentFile_run. cbv zeta.
  destruct (bool_decide (is_Some (os.dirs (after_mkdir fs) !! _))); simpl;
    [| destruct (bool_decide (is_Some (os.dirs (after_mkdir fs) !! _))); simpl].
  all: repeat split; intros;
    rewrite ?after_mkdir_umask, ?after_mkdir_dirs by assumption;
    try reflexivity.
  all: try (rewrite lookup_insert_ne by (intros E; subst; contradiction)).
  all: rewrite after_mkdir_files; reflexivity.
Qed.





(** X25.  bootstrapCmd writes nothing when the gatekeeper refuses: the disk
    is untouched and the error reads [bootstrap provision failed].  When the
    gatekeeper answers but the file cannot be written, the error names
    /etc/torus/token.environment and wraps the cause, and no file content
    has changed. *)
Theorem bootstrapCmd_failures `{Env} auth url machine org role ca (fs : os.FS) :
  (forall e, bootstrap_Do auth url machine org role ca = Err e ->
     bootstrapCmd auth url machine org role ca fs
       = (Some (Errorf "bootstrap provision failed: %s" [] e), fs)) /\
  (forall resp e fs',
     bootstrap_Do auth url machine org role ca = Ok resp ->
     writeEnvironmentFile (resp_Token resp) (resp_Secret resp) fs = (Some e, fs') ->
     bootstrapCmd auth url machine org role ca fs
       = (Some (Errorf "failed to write environment file[%s]: %s"
                  ["/etc/torus/token.environment"] e), fs') /\
     os.files fs' = os.files fs).
Proof.
  split.
  - intros e He. unfold bootstrapCmd. rewrite He. reflexivity.
  - intros resp e fs' Hdo Hw. split.
    + unfold bootstrapCmd. rewrite Hdo. cbv zeta. rewrite bind_run, Hw. reflexivity.
    + rewrite writeEnvironmentFile_run in Hw. cbv zeta in Hw.
      destruct (bool_decide (is_Some (os.dirs (after_mkdir fs) !! _))) in Hw.
      * inversion Hw; subst. apply after_mkdir_files.
      * destruct (bool_decide (is_Some (os.dirs (after_mkdir fs) !! _))) in Hw;
          [discriminate Hw |].
        inversion Hw; subst. apply after_mkdir_files.
Qed.

End cmd_more.

(** ** [machines destroy] *)
Module cmd_destroy_props.

Import cmd_destroy Go_facts.

Section Destroy.
Context {W : Type} `{Env W}.

(** What [confirmAndDestroy] comes to, by the answers it gets. *)
Lemma confirmAndDestroy_run ctx cfg machineID (st : State W) :
  exists out a evs,
    confirmAndDestroy ctx cfg machineID st = (out, mkState a (trace st ++ evs)) /\
    confirmed_tail machineID out evs.
Proof.
  unfold confirmAndDestroy, confirmed_tail, preamble, call, Println, bind, ret. simpl.
  destruct (ConfirmDialogue _ _ _ _ _ (world st)) as [[e |] w1] eqn:Hc; simpl.
  { do 3 eexists. split; [reflexivity |]. left. eexists. split; reflexivity. }
  destruct (Machines_Destroy cfg machineID w1) as [[e |] w2] eqn:Hd; simpl.
  { do 3 eexists. split; [rewrite <- app_assoc; reflexivity |].
    right. left. eexists. split; reflexivity. }
  do 3 eexists. split; [rewrite <- !app_assoc; reflexivity |].
  right. right. split; reflexivity.
Qed.

(** Every run: some lookups, then either an early return with an error or a
    panic, or the confirmation and what follows it. *)
Lemma destroyMachineCmd_shape ctx (st : State W) :
  exists out a pre tail,
    destroyMachineCmd ctx st = (out, mkState a (trace st ++ pre ++ tail)) /\
    forallb is_lookup pre = true /\
    ((tail = [] /\ out <> Returns None) \/ exists machineID, confirmed_tail machineID out tail).
Proof.
  assert (Hearly : forall out (a : W) pre,
    forallb is_lookup pre = true -> out <> Returns None ->
    exists out' a' pre' tail,
      (out, mkState a (trace st ++ pre)) = (out', mkState a' (trace st ++ pre' ++ tail)) /\
      forallb is_lookup pre' = true /\
      ((tail = [] /\ out' <> Returns None) \/
       exists machineID, confirmed_tail machineID out' tail)).
  { intros out a pre Hp Ho. exists out, a, pre, []. rewrite app_nil_r.
    split; [reflexivity |]. split; [exact Hp |]. left. split; [reflexivity | exact Ho]. }
  assert (Hlate : forall ctx' cfg machineID (a : W) pre,
    forallb is_lookup pre = true ->
    exists out' a' pre' tail,
      confirmAndDestroy ctx' cfg machineID (mkState a (trace st ++ pre))
        = (out', mkState a' (trace st ++ pre' ++ tail)) /\
      forallb is_lookup pre' = true /\
      ((tail = [] /\ out' <> Returns None) \/
       exists machineID, confirmed_tail machineID out' tail)).
  { intros ctx' cfg machineID a pre Hp.
    destruct (confirmAndDestroy_run ctx' cfg machineID (mkState a (trace st ++ pre)))
      as (out & a' & evs & Hrun & Htail).
    exists out, a', pre, evs. simpl in Hrun. rewrite <- app_assoc in Hrun.
    split; [exact Hrun |]. split; [exact Hp |]. right. exists machineID. exact Htail. }
  unfold destroyMachineCmd.
  destruct (1 <? length (Args ctx))%nat.
  { exists (Returns (Some (NewUsageExitError "Too many arguments supplied."))), (world st), [], []. simpl.
    rewrite app_nil_r. destruct st. repeat split. left. split; [reflexivity | discriminate]. }
  destruct (length (Args ctx) <? 1)%nat.
  { exists (Returns (Some (NewUsageExitError "Name or ID is required"))), (world st), [], []. simpl.
    rewrite app_nil_r. destruct st. repeat split. left. split; [reflexivity | discriminate]. }
  destruct (String.eqb (ctx_String ctx "org") "").
  { exists (Returns (Some (NewUsageExitError "Missing flags: --org"))), (world st), [], []. simpl.
    rewrite app_nil_r. destruct st. repeat split. left. split; [reflexivity | discriminate]. }
  unfold bind at 1, call at 1.
  destruct (LoadConfig (world st)) as [[cfg | err] w1]; simpl.
  2: { apply (Hearly _ _ [EvLoadConfig]); [reflexivity | discriminate]. }
  unfold bind at 1, call at 1. simpl.
  destruct (getOrg cfg (ctx_String ctx "org") w1) as [[[org |] | err] w2]; simpl.
  2: { rewrite <- app_assoc. apply (Hearly _ _ [EvLoadConfig; EvGetOrg _]);
         [reflexivity | discriminate]. }
  2: { rewrite <- app_assoc. apply (Hearly _ _ [EvLoadConfig; EvGetOrg _]);
         [reflexivity | discriminate]. }
  rewrite <- app_assoc. simpl.
  destruct (Args ctx !! 0%nat) as [arg0 |].
  2: { apply (Hearly _ _ [EvLoadConfig; EvGetOrg _]); [reflexivity | discriminate]. }
  destruct (DecodeFromString arg0) as [machineID | err].
  { apply (Hlate _ _ _ _ [EvLoadConfig; EvGetOrg _]). reflexivity. }
  unfold bind at 1, call at 1. simpl.
  destruct (Machines_List cfg (org_ID org) None (Some arg0) None w2)
    as [[machines | lErr] w3]; simpl; rewrite <- app_assoc; simpl.
  2: { apply (Hearly _ _ [EvLoadConfig; EvGetOrg _; EvList _ _]);
         [reflexivity | discriminate]. }
  destruct (length machines <? 1)%nat.
  { apply (Hearly _ _ [EvLoadConfig; EvGetOrg _; EvList _ _]);
      [reflexivity | discriminate]. }
  destruct (machines !! 0%nat) as [[[[[machineID |]] |]] |].
  { apply (Hlate _ _ _ _ [EvLoadConfig; EvGetOrg _; EvList _ _]). reflexivity. }
  all: apply (Hearly _ _ [EvLoadConfig; EvGetOrg _; EvList _ _]);
    [reflexivity | discriminate].
Qed.

Lemma lookups_destroy_nothing pre : forallb is_lookup pre = true -> destroys pre = [].
Proof.
  induction pre as [| e pre IH]; [reflexivity |]. simpl. intros Hp.
  apply andb_true_iff in Hp as [He Hp]. unfold destroys in *.
  destruct e; try discriminate He; simpl; apply IH; exact Hp.
Qed.

Lemma lookups_print_nothing pre line :
  forallb is_lookup pre = true -> ~ In (EvPrintln line) pre.
Proof.
  intros Hp Hin. rewrite forallb_forall in Hp. apply Hp in Hin. discriminate Hin.
Qed.

Lemma new_events_run (st : State W) a evs :
  new_events st (mkState a (trace st ++ evs)) = evs.
Proof. unfold new_events. simpl. apply drop_app_length. Qed.

(** X26.  With no argument, with more than one, or without --org,
    destroyMachineCmd returns a usage error and asks nothing of the
    configuration, the service or the user. *)
Theorem destroyMachineCmd_usage ctx (st : State W) :
  length (Args ctx) <> 1%nat \/ ctx_String ctx "org" = "" ->
  exists msg, destroyMachineCmd ctx st = (Returns (Some (NewUsageExitError msg)), st).
Proof.
  intros Hbad. unfold destroyMachineCmd.
  destruct (1 <? length (Args ctx))%nat eqn:Hmany; [eexists; reflexivity |].
  destruct (length (Args ctx) <? 1)%nat eqn:Hfew; [eexists; reflexivity |].
  destruct (String.eqb (ctx_String ctx "org") "") eqn:Horg; [eexists; reflexivity |].
  exfalso. apply Nat.ltb_ge in Hmany, Hfew. apply String.eqb_neq in Horg.
  destruct Hbad as [Hlen | Hempty]; [lia | contradiction].
Qed.

(** X27.  destroyMachineCmd sends at most one destroy request, and only
    straight after a confirmation the user accepted: a run sends none, or
    its events are lookups, the accepted confirmation, the request, and
    nothing but the closing message after it. *)
Theorem destroy_needs_confirmation ctx (st : State W) :
  let evs := new_events st (exec (destroyMachineCmd ctx) st) in
  destroys evs = [] \/
  exists pre machineID answer post,
    evs = pre ++ [EvConfirm preamble None; EvDestroy machineID answer] ++ post /\
    destroys pre = [] /\ destroys post = [].
Proof.
  intros evs. subst evs. unfold exec.
  destruct (destroyMachineCmd_shape ctx st) as (out & a & pre & tail & Hrun & Hpre & Htail).
  rewrite Hrun. simpl. rewrite new_events_run.
  pose proof (lookups_destroy_nothing pre Hpre) as Hnone.
  destruct Htail as [[-> _] | (machineID & [(e & -> & _) | [(e & -> & _) | [-> _]]])].
  - left. rewrite app_nil_r. exact Hnone.
  - left. unfold destroys in *. rewrite filter_app, Hnone. reflexivity.
  - right. exists pre, machineID, (Some e), []. repeat split. exact Hnone.
  - right. exists pre, machineID, None, [EvPrintln "Machine destroyed."].
    repeat split. exact Hnone.
Qed.

(** X28.  destroyMachineCmd returns nil exactly when it has printed
    [Machine destroyed.]; the run then ended with the accepted confirmation,
    a destroy request answered without error, and that line. *)
Theorem destroyMachineCmd_success ctx (st : State W) :
  let out := eval (destroyMachineCmd ctx) st in
  let evs := new_events st (exec (destroyMachineCmd ctx) st) in
  (out = Returns None <-> In (EvPrintln "Machine destroyed.") evs) /\
  (out = Returns None ->
   exists pre machineID,
     forallb is_lookup pre = true /\
     evs = pre ++ [EvConfirm preamble None; EvDestroy machineID None;
                   EvPrintln "Machine destroyed."]).
Proof.
  intros out evs. subst out evs. unfold exec, eval.
  destruct (destroyMachineCmd_shape ctx st) as (out & a & pre & tail & Hrun & Hpre & Htail).
  rewrite Hrun. simpl. rewrite new_events_run.
  pose proof (lookups_print_nothing pre "Machine destroyed." Hpre) as Hquiet.
  destruct Htail as [[-> Hout] | (machineID & [(e & -> & ->) | [(e & -> & ->) | [-> ->]]])].
  - rewrite app_nil_r. repeat split; intros; try contradiction.
  - repeat split; try discriminate.
    intros Hin. apply in_app_or in Hin as [Hin | [Hin | []]]; [contradiction | discriminate Hin].
  - repeat split; try discriminate.
    intros Hin. apply in_app_or in Hin as [Hin | [Hin | [Hin | []]]];
      [contradiction | discriminate Hin | discriminate Hin].
  - split; [split; [intros _ | reflexivity] |].
    + apply in_or_app. right. simpl. auto.
    + intros _. exists pre, machineID. split; [exact Hpre | reflexivity].
Qed.

(** X29.  When the argument does not read as an id, destroyMachineCmd lists
    the org's machines by that name.  If the listing fails, the error wraps
    the decoding error, not the listing's; if it is empty the machine is
    not found; in both cases the user is not asked and nothing is
    destroyed.  Otherwise any destroy request is for the first machine
    listed. *)
Theorem destroyMachineCmd_by_name ctx (st : State W) arg decErr cfg w1 org w2 l w3 :
  Args ctx = [arg] ->
  ctx_String ctx "org" <> "" ->
  DecodeFromString arg = Err decErr ->
  LoadConfig (world st) = (Ok cfg, w1) ->
  getOrg cfg (ctx_String ctx "org") w1 = (Ok (Some org), w2) ->
  Machines_List cfg (org_ID org) None (Some arg) None w2 = (l, w3) ->
  let out := eval (destroyMachineCmd ctx) st in
  let evs := new_events st (exec (destroyMachineCmd ctx) st) in
  let lookups := [EvLoadConfig; EvGetOrg (ctx_String ctx "org"); EvList (org_ID org) arg] in
  match l with
  | Err lErr =>
    out = Returns (Some (NewErrorExitError "Failed to retrieve machine" decErr)) /\
    evs = lookups
  | Ok [] => out = Returns (Some (NewExitError "Machine not found")) /\ evs = lookups
  | Ok machines =>
    match first_machine_ID machines with
    | None => out = Panics /\ evs = lookups
    | Some machineID =>
      exists tail, evs = lookups ++ tail /\ confirmed_tail machineID out tail
    end
  end.
Proof.
  intros Hargs Horg Hdec Hcfg Hget Hlist out evs lookups. subst out evs.
  assert (Hrun : destroyMachineCmd ctx st =
    let st3 := mkState w3 (trace st ++ lookups) in
    match l with
    | Err _ =>
      (Returns (Some (NewErrorExitError "Failed to retrieve machine" decErr)), st3)
    | Ok machines =>
      if (length machines <? 1)%nat
      then (Returns (Some (NewExitError "Machine not found")), st3)
      else match first_machine_ID machines with
           | Some machineID => confirmAndDestroy ctx cfg machineID st3
           | None => (Panics, st3)
           end
    end).
  { unfold destroyMachineCmd. rewrite Hargs. simpl.
    apply String.eqb_neq in Horg. rewrite Horg.
    unfold bind, call. rewrite Hcfg. simpl. rewrite Hget. simpl.
    rewrite Hdec. simpl. rewrite Hlist. simpl. rewrite <- !app_assoc. simpl.
    destruct l as [machines | lErr]; [| reflexivity].
    destruct (length machines <? 1)%nat; [reflexivity |].
    unfold first_machine_ID.
    destruct (machines !! 0%nat) as [[[[[machineID |]] |]] |]; reflexivity. }
  unfold exec, eval. rewrite Hrun. cbv zeta.
  destruct l as [[| m machines] | lErr]; simpl.
  - rewrite new_events_run. split; reflexivity.
  - destruct (first_machine_ID (m :: machines)) as [machineID |].
    + destruct (confirmAndDestroy_run ctx cfg machineID (mkState w3 (trace st ++ lookups)))
        as (out & a & tail & Hc & Htail).
      rewrite Hc. simpl. rewrite <- app_assoc, new_events_run.
      exists tail. split; [reflexivity | exact Htail].
    + simpl. rewrite new_events_run. split; reflexivity.
  - rewrite new_events_run. split; reflexivity.
Qed.

End Destroy.

Lemma destroyMachineCmd_usage_witness :
  (length (Args (mkContext ["web"; "db"] (fun _ => "acme"))) <> 1%nat \/
   ctx_String (mkContext ["web"; "db"] (fun _ => "acme")) "org" = "") /\
  exists msg,
    destroyMachineCmd (mkContext ["web"; "db"] (fun _ => "acme")) (samples.terminal 1)
      = (Returns (Some (NewUsageExitError msg)), samples.terminal 1).
Proof.
  split; [left; simpl; lia |].
  apply (destroyMachineCmd_usage (mkContext ["web"; "db"] (fun _ => "acme"))
           (samples.terminal 1)).
  left. simpl. lia.
Defined.

Lemma destroyMachineCmd_by_name_witness :
  exists tail,
    new_events (samples.terminal 1)
      (exec (destroyMachineCmd (samples.destroy_ctx "web")) (samples.terminal 1))
      = [EvLoadConfig; EvGetOrg "acme"; EvList (Some "org-1") "web"] ++ tail /\
    confirmed_tail "web-1"
      (eval (destroyMachineCmd (samples.destroy_ctx "web")) (samples.terminal 1)) tail.
Proof.
  apply (@destroyMachineCmd_by_name nat samples.fleet
           (samples.destroy_ctx "web") (samples.terminal 1)
           "web" (ErrorString "invalid id") tt 1%nat
           (mkOrg (Some "org-1")) 1%nat
           (Ok [mkSegment (Some (mkMachine (Some "web-1")));
                mkSegment (Some (mkMachine (Some "web-2")))]) 1%nat).
  - reflexivity.
  - discriminate.
  - reflexivity.
  - reflexivity.
  - reflexivity.
  - reflexivity.
Defined.

(** Destroying [web] on a terminal where the user accepts: the first machine
    listed goes. *)
Example destroy_web_accepted :
  destroyMachineCmd (samples.destroy_ctx "web") (samples.terminal 1)
  = (Returns None,
     mkState 0%nat [EvLoadConfig; EvGetOrg "acme"; EvList (Some "org-1") "web";
                    EvConfirm preamble None; EvDestroy "web-1" None;
                    EvPrintln "Machine destroyed."]).
Proof. reflexivity. Qed.

(** The user declines: nothing goes. *)
Example destroy_web_declined :
  destroyMachineCmd (samples.destroy_ctx "web") (samples.terminal 0)
  = (Returns (Some (Plain (ErrorString "aborted"))),
     mkState 0%nat [EvLoadConfig; EvGetOrg "acme"; EvList (Some "org-1") "web";
                    EvConfirm preamble (Some (ErrorString "aborted"))]).
Proof. reflexivity. Qed.

(** The listing times out: the error shown is the decoder's. *)
Example destroy_down_listing :
  eval (destroyMachineCmd (samples.destroy_ctx "down")) (samples.terminal 1)
  = Returns (Some (NewErrorExitError "Failed to retrieve machine" (ErrorString "invalid id"))).
Proof. reflexivity. Qed.

End cmd_destroy_props.
